(** * everything-mcp-server: the search adapter of [src/index.ts]

    A shallow embedding of the adapter that exposes the Everything search
    engine as four tools ([search_files], [search_files_advanced],
    [find_duplicates], [search_content]), and the properties of its
    observable contract.

    - JavaScript strings are [string]s whose characters stand for code
      units below 256; template literals are concatenations.
    - The native library is a state machine: one global query context,
      the last error code and the visible window of the last query.  The
      index of the external engine (file set, matcher and sorter) is a
      parameter of the development.
    - Every native call is a computation in the state monad [Native]. *)

From Stdlib Require Import ZArith List String Ascii Bool Lia DecimalString.
Import ListNotations.

Local Open Scope string_scope.
Local Open Scope Z_scope.

(** ** JavaScript string and value primitives used by the adapter *)

Module JS.

Definition quote : string := String (ascii_of_nat 34) EmptyString.
Definition backslash : string := String (ascii_of_nat 92) EmptyString.
Definition newline : string := String (ascii_of_nat 10) EmptyString.
Definition semicolon : ascii := ascii_of_nat 59.

(** Truthiness of an optional string ([undefined], [null] and the empty
    string are falsy), as tested by [if (path)] and [path && fileName]. *)
Definition truthy (s : option string) : bool :=
  match s with
  | None => false
  | Some EmptyString => false
  | Some (String _ _) => true
  end.

(** The string behind a truthy optional string. *)
Definition valueOf (s : option string) : string :=
  match s with
  | Some v => v
  | None => EmptyString
  end.

(** [options.flag || false] *)
Definition orFalse (b : option bool) : bool :=
  match b with
  | Some true => true
  | _ => false
  end.

(** [options.maxResults || d]: zero is falsy as well. *)
Definition orNumber (n : option Z) (d : Z) : Z :=
  match n with
  | Some m => if m =? 0 then d else m
  | None => d
  end.

(** A destructuring default, [{ x = d }]: only [undefined] takes it. *)
Definition withDefault {A : Type} (d : A) (x : option A) : A :=
  match x with
  | Some v => v
  | None => d
  end.

(** [s.endsWith(suffix)] *)
Fixpoint endsWith (s suffix : string) : bool :=
  if String.eqb s suffix then true
  else match s with
       | EmptyString => false
       | String _ s' => endsWith s' suffix
       end.

(** [s.split(sep)] for a one-character separator: never empty. *)
Fixpoint split (sep : ascii) (s : string) : list string :=
  match s with
  | EmptyString => [EmptyString]
  | String c s' =>
      if Ascii.eqb c sep then EmptyString :: split sep s'
      else match split sep s' with
           | [] => [String c EmptyString]
           | w :: ws => String c w :: ws
           end
  end.

(** White space of [String.prototype.trim] among the code units below
    256: TAB, LF, VT, FF, CR, SP and NBSP. *)
Definition isWhiteSpace (c : ascii) : bool :=
  let n := N_of_ascii c in
  ((9 <=? n) && (n <=? 13) || (n =? 32) || (n =? 160))%N.

Fixpoint trimStart (s : string) : string :=
  match s with
  | EmptyString => EmptyString
  | String c s' => if isWhiteSpace c then trimStart s' else s
  end.

Fixpoint trimEnd (s : string) : string :=
  match s with
  | EmptyString => EmptyString
  | String c s' =>
      match trimEnd s' with
      | EmptyString => if isWhiteSpace c then EmptyString else String c EmptyString
      | t => String c t
      end
  end.

Definition trim (s : string) : string := trimEnd (trimStart s).

(** [arr.join(sep)] *)
Definition join (sep : string) (arr : list string) : string :=
  String.concat sep arr.

(** [`${n}`] for an integer. *)
Definition toString (n : Z) : string :=
  NilZero.string_of_int (Z.to_int n).

(** [s.includes(sub)] as a proposition. *)
Definition includes (s sub : string) : Prop :=
  exists pre post : string, s = pre ++ sub ++ post.

End JS.

Import JS.

(** ** Everything SDK constants *)

Definition EVERYTHING_OK : Z := 0.
Definition EVERYTHING_ERROR_MEMORY : Z := 1.
Definition EVERYTHING_ERROR_IPC : Z := 2.
Definition EVERYTHING_ERROR_REGISTERCLASSEX : Z := 3.
Definition EVERYTHING_ERROR_CREATEWINDOW : Z := 4.
Definition EVERYTHING_ERROR_CREATETHREAD : Z := 5.
Definition EVERYTHING_ERROR_INVALIDINDEX : Z := 6.
Definition EVERYTHING_ERROR_INVALIDCALL : Z := 7.
Definition EVERYTHING_ERROR_INVALIDREQUEST : Z := 8.
Definition EVERYTHING_ERROR_INVALIDPARAMETER : Z := 9.

Definition EVERYTHING_SORT_NAME_ASCENDING : Z := 1.
Definition EVERYTHING_SORT_NAME_DESCENDING : Z := 2.
Definition EVERYTHING_SORT_PATH_ASCENDING : Z := 3.
Definition EVERYTHING_SORT_PATH_DESCENDING : Z := 4.
Definition EVERYTHING_SORT_SIZE_ASCENDING : Z := 5.
Definition EVERYTHING_SORT_SIZE_DESCENDING : Z := 6.
Definition EVERYTHING_SORT_DATE_MODIFIED_ASCENDING : Z := 13.
Definition EVERYTHING_SORT_DATE_MODIFIED_DESCENDING : Z := 14.

Definition EVERYTHING_REQUEST_FILE_NAME : Z := 1.
Definition EVERYTHING_REQUEST_PATH : Z := 2.
Definition EVERYTHING_REQUEST_FULL_PATH_AND_FILE_NAME : Z := 4.
Definition EVERYTHING_REQUEST_SIZE : Z := 16.
Definition EVERYTHING_REQUEST_DATE_MODIFIED : Z := 64.

(** ** Data model *)

(** One row of the engine's current result set.  The two strings are
    [str16] returns of the native library and may be null. *)
Record ResultRow : Type := {
  fileName : option string;
  directoryPath : option string;
  isFile : bool;
  isFolder : bool
}.

(** The options object of [searchWithEverything]; every field is optional. *)
Record Options : Type := {
  maxResults : option Z;
  matchCase : option bool;
  matchWholeWord : option bool;
  regex : option bool;
  sortBy : option string
}.

(** The object returned by [searchWithEverything]. *)
Record QueryOutcome : Type := {
  results : list string;
  totalResults : Z;
  error : option string
}.

(** A tool response: one text block and the error flag. *)
Record ToolResponse : Type := {
  text : string;
  isError : bool
}.

(** ** The native library *)

(** The engine's global query context: what the eight setters write. *)
Record QueryContext : Type := {
  q_search : string;
  q_matchCase : bool;
  q_matchWholeWord : bool;
  q_regex : bool;
  q_max : Z;
  q_offset : Z;
  q_requestFlags : Z;
  q_sort : Z
}.

(** What the engine's index answers for a configured context: an error
    code, or all the rows that match, in the requested order. *)
Inductive QueryReply : Type :=
| QueryFailed (code : Z)
| QueryMatches (rows : list ResultRow).

(** The state of the loaded library. [visible] is the window of the last
    query that the indexed getters can read. *)
Record Engine : Type := {
  context : QueryContext;
  lastError : Z;
  visible : list ResultRow
}.

Definition Native (A : Type) : Type := Engine -> A * Engine.

Definition ret {A : Type} (a : A) : Native A := fun e => (a, e).

Definition bind {A B : Type} (m : Native A) (k : A -> Native B) : Native B :=
  fun e => let (a, e') := m e in k a e'.

Notation "x <- m ;; k" := (bind m (fun x => k))
  (at level 61, m at next level, right associativity).
Notation "m ;; k" := (bind m (fun _ => k))
  (at level 61, right associativity).

Definition configure (f : QueryContext -> QueryContext) : Native unit :=
  fun e => (tt, {| context := f (context e);
                   lastError := lastError e;
                   visible := visible e |}).

Definition Everything_SetSearchW (s : string) : Native unit :=
  configure (fun c =>
    {| q_search := s; q_matchCase := q_matchCase c;
       q_matchWholeWord := q_matchWholeWord c; q_regex := q_regex c;
       q_max := q_max c; q_offset := q_offset c;
       q_requestFlags := q_requestFlags c; q_sort := q_sort c |}).

Definition Everything_SetMatchCase (b : bool) : Native unit :=
  configure (fun c =>
    {| q_search := q_search c; q_matchCase := b;
       q_matchWholeWord := q_matchWholeWord c; q_regex := q_regex c;
       q_max := q_max c; q_offset := q_offset c;
       q_requestFlags := q_requestFlags c; q_sort := q_sort c |}).

Definition Everything_SetMatchWholeWord (b : bool) : Native unit :=
  configure (fun c =>
    {| q_search := q_search c; q_matchCase := q_matchCase c;
       q_matchWholeWord := b; q_regex := q_regex c;
       q_max := q_max c; q_offset := q_offset c;
       q_requestFlags := q_requestFlags c; q_sort := q_sort c |}).

Definition Everything_SetRegex (b : bool) : Native unit :=
  configure (fun c =>
    {| q_search := q_search c; q_matchCase := q_matchCase c;
       q_matchWholeWord := q_matchWholeWord c; q_regex := b;
       q_max := q_max c; q_offset := q_offset c;
       q_requestFlags := q_requestFlags c; q_sort := q_sort c |}).

Definition Everything_SetMax (n : Z) : Native unit :=
  configure (fun c =>
    {| q_search := q_search c; q_matchCase := q_matchCase c;
       q_matchWholeWord := q_matchWholeWord c; q_regex := q_regex c;
       q_max := n; q_offset := q_offset c;
       q_requestFlags := q_requestFlags c; q_sort := q_sort c |}).

Definition Everything_SetOffset (n : Z) : Native unit :=
  configure (fun c =>
    {| q_search := q_search c; q_matchCase := q_matchCase c;
       q_matchWholeWord := q_matchWholeWord c; q_regex := q_regex c;
       q_max := q_max c; q_offset := n;
       q_requestFlags := q_requestFlags c; q_sort := q_sort c |}).

Definition Everything_SetRequestFlags (n : Z) : Native unit :=
  configure (fun c =>
    {| q_search := q_search c; q_matchCase := q_matchCase c;
       q_matchWholeWord := q_matchWholeWord c; q_regex := q_regex c;
       q_max := q_max c; q_offset := q_offset c;
       q_requestFlags := n; q_sort := q_sort c |}).

Definition Everything_SetSort (n : Z) : Native unit :=
  configure (fun c =>
    {| q_search := q_search c; q_matchCase := q_matchCase c;
       q_matchWholeWord := q_matchWholeWord c; q_regex := q_regex c;
       q_max := q_max c; q_offset := q_offset c;
       q_requestFlags := q_requestFlags c; q_sort := n |}).

(** Modelled from the spec: the query of the native library (the
    Everything DLL is not among the sources, only its bindings are).  The
    maximum result count and the result offset select the rows that a
    query returns: [q_max] rows from [q_offset] on. *)
Definition window (c : QueryContext) (rows : list ResultRow) : list ResultRow :=
  firstn (Z.to_nat (q_max c)) (skipn (Z.to_nat (q_offset c)) rows).

Definition Everything_GetLastError : Native Z :=
  fun e => (lastError e, e).

(** The number of results that the last query returned, after the cap. *)
Definition Everything_GetNumResults : Native Z :=
  fun e => (Z.of_nat (List.length (visible e)), e).

Definition Everything_GetResultFileNameW (i : Z) : Native (option string) :=
  fun e => (match nth_error (visible e) (Z.to_nat i) with
            | Some r => fileName r
            | None => None
            end, e).

Definition Everything_GetResultPathW (i : Z) : Native (option string) :=
  fun e => (match nth_error (visible e) (Z.to_nat i) with
            | Some r => directoryPath r
            | None => None
            end, e).

Definition Everything_IsFileResult (i : Z) : Native bool :=
  fun e => (match nth_error (visible e) (Z.to_nat i) with
            | Some r => isFile r
            | None => false
            end, e).

Definition Everything_IsFolderResult (i : Z) : Native bool :=
  fun e => (match nth_error (visible e) (Z.to_nat i) with
            | Some r => isFolder r
            | None => false
            end, e).

(** ** The adapter *)

(** The two switches of [searchWithEverything]. *)

Definition sortOrderOf (sortBy : option string) : Z :=
  match sortBy with
  | None => EVERYTHING_SORT_NAME_ASCENDING
  | Some s =>
      if (s =? "name_desc")%string then EVERYTHING_SORT_NAME_DESCENDING
      else if (s =? "path_asc")%string then EVERYTHING_SORT_PATH_ASCENDING
      else if (s =? "path_desc")%string then EVERYTHING_SORT_PATH_DESCENDING
      else if (s =? "size_asc")%string then EVERYTHING_SORT_SIZE_ASCENDING
      else if (s =? "size_desc")%string then EVERYTHING_SORT_SIZE_DESCENDING
      else if (s =? "date_asc")%string then EVERYTHING_SORT_DATE_MODIFIED_ASCENDING
      else if (s =? "date_desc")%string then EVERYTHING_SORT_DATE_MODIFIED_DESCENDING
      else EVERYTHING_SORT_NAME_ASCENDING
  end.

Definition errorMessageOf (errorCode : Z) : string :=
  if errorCode =? EVERYTHING_ERROR_MEMORY then "Out of memory"
  else if errorCode =? EVERYTHING_ERROR_IPC then "Everything search client is not running"
  else if errorCode =? EVERYTHING_ERROR_REGISTERCLASSEX then "Unable to register window class"
  else if errorCode =? EVERYTHING_ERROR_CREATEWINDOW then "Unable to create listening window"
  else if errorCode =? EVERYTHING_ERROR_CREATETHREAD then "Unable to create listening thread"
  else if errorCode =? EVERYTHING_ERROR_INVALIDINDEX then "Invalid index"
  else if errorCode =? EVERYTHING_ERROR_INVALIDCALL then "Invalid call"
  else if errorCode =? EVERYTHING_ERROR_INVALIDREQUEST then "Invalid request data, request data first"
  else if errorCode =? EVERYTHING_ERROR_INVALIDPARAMETER then "Bad parameter"
  else "Everything query failed with error code: " ++ toString errorCode.

(** The body of the result loop, for the four values read at one index. *)

Definition fullPathOf (path fileName : option string) : string :=
  let fullPath := EmptyString in
  if truthy path && truthy fileName then
    if endsWith (valueOf path) backslash
    then valueOf path ++ valueOf fileName
    else valueOf path ++ backslash ++ valueOf fileName
  else if truthy fileName then valueOf fileName
  else fullPath.

Definition typeOf (isFile isFolder : bool) : string :=
  if isFile then "[FILE]" else if isFolder then "[FOLDER]" else "[UNKNOWN]".

Definition formatLine (fileName path : option string) (isFile isFolder : bool) : string :=
  typeOf isFile isFolder ++ " " ++ fullPathOf path fileName.

Definition formatRow (r : ResultRow) : string :=
  formatLine (fileName r) (directoryPath r) (isFile r) (isFolder r).

(** [for (let i = 0; i < numResults; i++)]: [remaining] is [numResults - i]. *)
Fixpoint resultLoop (remaining : nat) (i : Z) (results : list string)
  : Native (list string) :=
  match remaining with
  | O => ret results
  | S remaining' =>
      fileName <- Everything_GetResultFileNameW i ;;
      path <- Everything_GetResultPathW i ;;
      isFile <- Everything_IsFileResult i ;;
      isFolder <- Everything_IsFolderResult i ;;
      resultLoop remaining' (i + 1)
        (results ++ [formatLine fileName path isFile isFolder])%list
  end.

(** Query assembly of the three tools that add filters. *)

Definition prependFilter (filter : option string) (clause : string -> string)
  (searchQuery : string) : string :=
  if truthy filter then clause (valueOf filter) ++ " " ++ searchQuery
  else searchQuery.

Definition pathClause (path : string) : string := "path:" ++ quote ++ path ++ quote.
Definition extClause (extension : string) : string := "ext:" ++ extension.
Definition sizeClause (size : string) : string := "size:" ++ size.
Definition dmClause (dateModified : string) : string := "dm:" ++ dateModified.

Definition advancedQuery (query : string)
  (path extension size dateModified : option string) : string :=
  let searchQuery := query in
  let searchQuery := prependFilter path pathClause searchQuery in
  let searchQuery := prependFilter extension extClause searchQuery in
  let searchQuery := prependFilter size sizeClause searchQuery in
  let searchQuery := prependFilter dateModified dmClause searchQuery in
  searchQuery.

Definition duplicatesQuery (filename : string) (path : option string) : string :=
  let searchQuery := filename in
  prependFilter path pathClause searchQuery.

Definition extGroup (fileTypes : string) : string :=
  let types := join " | " (map (fun type => "ext:" ++ trim type) (split semicolon fileTypes)) in
  "(" ++ types ++ ")".

Definition contentQuery (content : string) (fileTypes path : option string) : string :=
  let searchQuery := "content:" ++ quote ++ content ++ quote in
  let searchQuery := prependFilter fileTypes extGroup searchQuery in
  let searchQuery := prependFilter path pathClause searchQuery in
  searchQuery.

(** Response texts of the four handlers, from the outcome of the search. *)

Definition contentNote : string :=
  "Note: Content search requires Everything to have content indexing enabled.".

Definition lengthOf (results : list string) : Z := Z.of_nat (List.length results).

Definition search_files_response (query : string) (o : QueryOutcome) : ToolResponse :=
  if truthy (error o) then
    {| text := "Error: " ++ valueOf (error o); isError := true |}
  else
    {| text :=
         if 0 <? lengthOf (results o) then
           "Found " ++ toString (totalResults o) ++ " files (showing "
             ++ toString (lengthOf (results o)) ++ "):" ++ newline ++ newline
             ++ join newline (results o)
         else "No files found matching " ++ quote ++ query ++ quote;
       isError := false |}.

Definition filterInfo (label : string) (filter : option string) : list string :=
  match filter with
  | Some v => [label ++ v]
  | None => []
  end.

(** [if (filter)]: the value when it is truthy. *)
Definition given (filter : option string) : option string :=
  if truthy filter then filter else None.

Definition search_files_advanced_response (query : string)
  (path extension size dateModified : option string) (sortBy : string)
  (o : QueryOutcome) : ToolResponse :=
  if truthy (error o) then
    {| text := "Error: " ++ valueOf (error o); isError := true |}
  else
    let responseText := "Found " ++ toString (totalResults o) ++ " files" in
    let filters :=
      List.app (filterInfo "path: " (option_map (fun v => quote ++ v ++ quote) (given path)))
        (List.app (filterInfo "extension: " (given extension))
           (List.app (filterInfo "size: " (given size))
              (filterInfo "date modified: " (given dateModified)))) in
    let responseText :=
      if 0 <? lengthOf filters
      then responseText ++ " (filtered by " ++ join ", " filters ++ ")"
      else responseText in
    let responseText :=
      responseText ++ " (showing " ++ toString (lengthOf (results o))
        ++ ", sorted by " ++ sortBy ++ "):" ++ newline ++ newline
        ++ (if 0 <? lengthOf (results o) then join newline (results o)
            else "No files found matching " ++ quote ++ query ++ quote) in
    {| text := responseText; isError := false |}.

Definition find_duplicates_response (filename : string) (o : QueryOutcome)
  : ToolResponse :=
  if truthy (error o) then
    {| text := "Error: " ++ valueOf (error o); isError := true |}
  else
    let responseText :=
      if 1 <? totalResults o then
        "Found " ++ toString (totalResults o) ++ " instances of " ++ quote
          ++ filename ++ quote ++ " (showing " ++ toString (lengthOf (results o))
          ++ "):" ++ newline ++ newline ++ join newline (results o)
      else if totalResults o =? 1 then
        "Found only 1 instance of " ++ quote ++ filename ++ quote ++ ":"
          ++ newline ++ newline ++ nth 0 (results o) "undefined"
      else "No files found with name " ++ quote ++ filename ++ quote in
    {| text := responseText; isError := false |}.

Definition search_content_response (content : string) (o : QueryOutcome)
  : ToolResponse :=
  if truthy (error o) then
    {| text := "Error: " ++ valueOf (error o) ++ ". " ++ contentNote;
       isError := true |}
  else
    let responseText :=
      if 0 <? lengthOf (results o) then
        "Found " ++ toString (totalResults o) ++ " files containing " ++ quote
          ++ content ++ quote ++ " (showing " ++ toString (lengthOf (results o))
          ++ "):" ++ newline ++ newline ++ join newline (results o)
      else "No files found containing " ++ quote ++ content ++ quote ++ ". "
             ++ contentNote in
    {| text := responseText; isError := false |}.

Section Adapter.

(** The external engine: its file set, matcher and sorter. *)
Variable index : QueryContext -> QueryReply.

(** [Everything_QueryW(true)]: the reply is ready when the call returns. *)
Definition Everything_QueryW (wait : bool) : Native bool :=
  fun e =>
    match index (context e) with
    | QueryFailed code =>
        (false, {| context := context e; lastError := code; visible := [] |})
    | QueryMatches rows =>
        (true, {| context := context e; lastError := EVERYTHING_OK;
                  visible := window (context e) rows |})
    end.

(** No native call of the model throws, so the [catch] branch of the
    source has no counterpart here. *)
Definition searchWithEverything (query : string) (options : Options)
  : Native QueryOutcome :=
  Everything_SetSearchW query ;;
  Everything_SetMatchCase (orFalse (matchCase options)) ;;
  Everything_SetMatchWholeWord (orFalse (matchWholeWord options)) ;;
  Everything_SetRegex (orFalse (regex options)) ;;
  Everything_SetMax (orNumber (maxResults options) 100) ;;
  Everything_SetOffset 0 ;;
  Everything_SetRequestFlags
    (Z.lor (Z.lor EVERYTHING_REQUEST_FILE_NAME EVERYTHING_REQUEST_PATH)
           EVERYTHING_REQUEST_FULL_PATH_AND_FILE_NAME) ;;
  let sortOrder := sortOrderOf (sortBy options) in
  Everything_SetSort sortOrder ;;
  success <- Everything_QueryW true ;;
  if negb success then
    errorCode <- Everything_GetLastError ;;
    let errorMessage := errorMessageOf errorCode in
    ret {| results := []; totalResults := 0; error := Some errorMessage |}
  else
    numResults <- Everything_GetNumResults ;;
    results <- resultLoop (Z.to_nat numResults) 0 [] ;;
    ret {| results := results; totalResults := numResults; error := None |}.

(** The four tool handlers; absent arguments take the defaults of the
    destructuring patterns. *)

Definition search_files (query : string) (maxResults : option Z)
  (matchCase matchWholeWord regex : option bool) : Native ToolResponse :=
  let maxResults := withDefault 20 maxResults in
  let matchCase := withDefault false matchCase in
  let matchWholeWord := withDefault false matchWholeWord in
  let regex := withDefault false regex in
  o <- searchWithEverything query
         (Build_Options (Some maxResults) (Some matchCase)
            (Some matchWholeWord) (Some regex) None) ;;
  ret (search_files_response query o).

Definition search_files_advanced (query : string)
  (path extension size dateModified : option string) (maxResults : option Z)
  (matchCase matchWholeWord regex : option bool) (sortBy : option string)
  : Native ToolResponse :=
  let maxResults := withDefault 100 maxResults in
  let matchCase := withDefault false matchCase in
  let matchWholeWord := withDefault false matchWholeWord in
  let regex := withDefault false regex in
  let sortBy := withDefault "name_asc" sortBy in
  let searchQuery := advancedQuery query path extension size dateModified in
  o <- searchWithEverything searchQuery
         (Build_Options (Some maxResults) (Some matchCase)
            (Some matchWholeWord) (Some regex) (Some sortBy)) ;;
  ret (search_files_advanced_response query path extension size dateModified
         sortBy o).

Definition find_duplicates (filename : string) (path : option string)
  (maxResults : option Z) : Native ToolResponse :=
  let maxResults := withDefault 50 maxResults in
  let searchQuery := duplicatesQuery filename path in
  o <- searchWithEverything searchQuery
         (Build_Options (Some maxResults) None (Some true) None None) ;;
  ret (find_duplicates_response filename o).

Definition search_content (content : string) (fileTypes path : option string)
  (maxResults : option Z) : Native ToolResponse :=
  let maxResults := withDefault 50 maxResults in
  let searchQuery := contentQuery content fileTypes path in
  o <- searchWithEverything searchQuery
         (Build_Options (Some maxResults) None None None None) ;;
  ret (search_content_response content o).

End Adapter.

(** * Definitions used to state the properties *)

(** The line that one pass of the loop body formats at index [i]. *)
Definition lineAt (e : Engine) (i : Z) : string :=
  formatLine (fst (Everything_GetResultFileNameW i e))
             (fst (Everything_GetResultPathW i e))
             (fst (Everything_IsFileResult i e))
             (fst (Everything_IsFolderResult i e)).

(** The query context that a call with [query] and [options] asks for:
    every one of the eight parameters, none taken from an earlier call. *)
Definition configuredContext (query : string) (options : Options) : QueryContext :=
  {| q_search := query;
     q_matchCase := orFalse (matchCase options);
     q_matchWholeWord := orFalse (matchWholeWord options);
     q_regex := orFalse (regex options);
     q_max := orNumber (maxResults options) 100;
     q_offset := 0;
     q_requestFlags := 7;
     q_sort := sortOrderOf (sortBy options) |}.

(** What one call returns and leaves behind, by the reply of the index. *)
Definition outcomeOf (c : QueryContext) (reply : QueryReply) : QueryOutcome * Engine :=
  match reply with
  | QueryFailed code =>
      ({| results := []; totalResults := 0; error := Some (errorMessageOf code) |},
       {| context := c; lastError := code; visible := [] |})
  | QueryMatches rows =>
      ({| results := map formatRow (window c rows);
          totalResults := Z.of_nat (List.length (window c rows));
          error := None |},
       {| context := c; lastError := EVERYTHING_OK; visible := window c rows |})
  end.

(** The options that each handler passes to the search. *)

Definition search_files_options (maxResults : option Z)
  (matchCase matchWholeWord regex : option bool) : Options :=
  Build_Options (Some (withDefault 20 maxResults)) (Some (withDefault false matchCase))
    (Some (withDefault false matchWholeWord)) (Some (withDefault false regex)) None.

Definition search_files_advanced_options (maxResults : option Z)
  (matchCase matchWholeWord regex : option bool) (sortBy : option string) : Options :=
  Build_Options (Some (withDefault 100 maxResults)) (Some (withDefault false matchCase))
    (Some (withDefault false matchWholeWord)) (Some (withDefault false regex))
    (Some (withDefault "name_asc" sortBy)).

Definition find_duplicates_options (maxResults : option Z) : Options :=
  Build_Options (Some (withDefault 50 maxResults)) None (Some true) None None.

Definition search_content_options (maxResults : option Z) : Options :=
  Build_Options (Some (withDefault 50 maxResults)) None None None None.

(** [m] then [f] on its value. *)
Definition andThen {A B : Type} (m : Native A) (f : A -> B) : Native B :=
  fun e => (f (fst (m e)), snd (m e)).

(** The text that one optional filter contributes to the search text:
    its clause and a space when the filter is given, nothing otherwise. *)
Definition filterText (filter : option string) (clause : string -> string) : string :=
  match given filter with
  | Some v => clause v ++ " "
  | None => EmptyString
  end.

(** ** Engines used in the examples *)

Module Fixture.

Definition report1 : ResultRow :=
  {| fileName := Some "a.txt"; directoryPath := Some "C:\Users\x";
     isFile := true; isFolder := false |}.

Definition report2 : ResultRow :=
  {| fileName := Some "a.txt"; directoryPath := Some "D:\backup";
     isFile := true; isFolder := false |}.

Definition report3 : ResultRow :=
  {| fileName := Some "a.txt"; directoryPath := Some "E:\old";
     isFile := true; isFolder := false |}.

(** An index in which three files match whatever is asked. *)
Definition threeFiles (c : QueryContext) : QueryReply :=
  QueryMatches [report1; report2; report3].

(** An index whose engine process is not running. *)
Definition notRunning (c : QueryContext) : QueryReply :=
  QueryFailed EVERYTHING_ERROR_IPC.

(** The library as loaded: nothing configured, nothing queried. *)
Definition fresh : Engine :=
  {| context := {| q_search := EmptyString; q_matchCase := false;
                   q_matchWholeWord := false; q_regex := false;
                   q_max := 4294967295; q_offset := 0;
                   q_requestFlags := 3; q_sort := 1 |};
     lastError := EVERYTHING_OK;
     visible := [] |}.

End Fixture.

(** ** Vocabulary for the further properties *)

(** The eight values that the schema of search_files_advanced admits for
    [sortBy]. *)
Definition sortKeys : list string :=
  ["name_asc"; "name_desc"; "path_asc"; "path_desc";
   "size_asc"; "size_desc"; "date_asc"; "date_desc"].

(** Whether a character occurs in a string, and how often. *)
Fixpoint hasChar (c : ascii) (s : string) : bool :=
  match s with
  | EmptyString => false
  | String x s' => Ascii.eqb x c || hasChar c s'
  end.

Fixpoint countChar (c : ascii) (s : string) : nat :=
  match s with
  | EmptyString => O
  | String x s' => if Ascii.eqb x c then S (countChar c s') else countChar c s'
  end.

(** Strings made of white space only; first and last character. *)
Fixpoint allWhiteSpace (s : string) : bool :=
  match s with
  | EmptyString => true
  | String x s' => isWhiteSpace x && allWhiteSpace s'
  end.

Definition firstChar (s : string) : option ascii :=
  match s with
  | EmptyString => None
  | String x _ => Some x
  end.

Fixpoint lastChar (s : string) : option ascii :=
  match s with
  | EmptyString => None
  | String x s' =>
      match lastChar s' with
      | None => Some x
      | Some y => Some y
      end
  end.

(** A handler call [r] answers within [cap]: its response is [response]
    of a search outcome whose result lines are the formatted visible rows
    of the engine that the call leaves behind, there are at most [cap] of
    them, and [cap] is the maximum that the call configured. *)
Definition answersWithin (cap : Z) (response : QueryOutcome -> ToolResponse)
  (r : ToolResponse * Engine) : Prop :=
  exists o : QueryOutcome,
    fst r = response o
    /\ results o = map formatRow (visible (snd r))
    /\ lengthOf (results o) <= cap
    /\ q_max (context (snd r)) = cap.

(** An engine in which exactly one file matches. *)
Definition oneFile (c : QueryContext) : QueryReply :=
  QueryMatches [Fixture.report1].

(** An engine in which nothing matches. *)
Definition noFile (c : QueryContext) : QueryReply :=
  QueryMatches [].

(** * Properties *)

(** ** Strings *)

Lemma append_assoc (a b c : string) : (a ++ b) ++ c = a ++ (b ++ c).
Proof.
  induction a as [|x a IH]; simpl; [reflexivity | now rewrite IH].
Qed.

(** [endsWith] is the suffix relation. *)
Lemma endsWith_iff (s suffix : string) :
  endsWith s suffix = true <-> exists pre, s = pre ++ suffix.
Proof.
  induction s as [|c s IH]; cbn [endsWith].
  - destruct (String.eqb_spec EmptyString suffix) as [Heq | Hne].
    + split; [now exists EmptyString | reflexivity].
    + split; [discriminate |].
      intros [pre Hpre]. destruct pre; simpl in Hpre; [contradiction | discriminate].
  - destruct (String.eqb_spec (String c s) suffix) as [Heq | Hne].
    + split; [now exists EmptyString | reflexivity].
    + rewrite IH. split.
      * intros [pre ->]. now exists (String c pre).
      * intros [pre Hpre]. destruct pre as [|c' pre]; simpl in Hpre.
        -- now elim Hne.
        -- injection Hpre as _ ->. now exists pre.
Qed.

Lemma truthy_Some (s : string) : truthy (Some s) = true <-> s <> EmptyString.
Proof.
  destruct s; simpl; split; intros H; try reflexivity; try discriminate.
  now elim H.
Qed.

(** ** The native library and the result loop *)

Lemma lineAt_visible (e : Engine) (k : nat) (r : ResultRow) :
  nth_error (visible e) k = Some r -> lineAt e (Z.of_nat k) = formatRow r.
Proof.
  intros H. unfold lineAt, Everything_GetResultFileNameW, Everything_GetResultPathW,
    Everything_IsFileResult, Everything_IsFolderResult; simpl.
  now rewrite Nat2Z.id, H.
Qed.

(** The getters leave the engine alone, so the loop appends one line per
    index and returns the engine as it found it. *)
Lemma resultLoop_run (n : nat) : forall (i : Z) (acc : list string) (e : Engine),
  resultLoop n i acc e =
  ((acc ++ map (fun k => lineAt e (i + Z.of_nat k)) (seq 0 n))%list, e).
Proof.
  induction n as [|n IH]; intros i acc e.
  - simpl. unfold ret. now rewrite app_nil_r.
  - cbn [resultLoop]. unfold bind at 1 2 3 4. cbn [Everything_GetResultFileNameW
      Everything_GetResultPathW Everything_IsFileResult Everything_IsFolderResult].
    rewrite IH. f_equal. rewrite <- app_assoc. f_equal. cbn [seq map app].
    f_equal.
    + unfold lineAt. simpl. now rewrite Z.add_0_r.
    + rewrite <- seq_shift, map_map. apply map_ext. intros k.
      f_equal. lia.
Qed.

Lemma map_lineAt_visible (e : Engine) :
  map (fun k => lineAt e (0 + Z.of_nat k)) (seq 0 (List.length (visible e)))
  = map formatRow (visible e).
Proof.
  apply nth_error_ext. intros k.
  rewrite !nth_error_map.
  destruct (nth_error (visible e) k) as [r|] eqn:Hk.
  - assert (Hlt : (k < List.length (visible e))%nat)
      by (apply nth_error_Some; congruence).
    rewrite nth_error_seq. destruct (Nat.ltb_spec k (List.length (visible e))); [|lia].
    simpl. f_equal. now apply lineAt_visible.
  - apply nth_error_None in Hk.
    rewrite nth_error_seq. destruct (Nat.ltb_spec k (List.length (visible e))); [lia|].
    reflexivity.
Qed.

Section Run.

Variable index : QueryContext -> QueryReply.

Lemma searchWithEverything_run (query : string) (options : Options) (e : Engine) :
  searchWithEverything index query options e
  = outcomeOf (configuredContext query options)
              (index (configuredContext query options)).
Proof.
  unfold searchWithEverything.
  unfold bind at 1 2 3 4 5 6 7 8 9.
  cbn [Everything_SetSearchW Everything_SetMatchCase Everything_SetMatchWholeWord
       Everything_SetRegex Everything_SetMax Everything_SetOffset
       Everything_SetRequestFlags Everything_SetSort configure
       context lastError visible
       q_search q_matchCase q_matchWholeWord q_regex q_max q_offset
       q_requestFlags q_sort].
  change (Z.lor (Z.lor EVERYTHING_REQUEST_FILE_NAME EVERYTHING_REQUEST_PATH)
            EVERYTHING_REQUEST_FULL_PATH_AND_FILE_NAME) with 7.
  fold (configuredContext query options).
  unfold Everything_QueryW. cbn [context].
  destruct (index (configuredContext query options)) as [code | rows]; cbn [negb outcomeOf].
  - reflexivity.
  - unfold bind, Everything_GetNumResults, ret. cbn [visible].
    rewrite Nat2Z.id, resultLoop_run. cbn [visible app].
    now rewrite map_lineAt_visible.
Qed.

End Run.

(** ** The handlers as one search followed by one formatting step *)

Section Handlers.

Variable index : QueryContext -> QueryReply.

Lemma bind_ret_andThen {A B : Type} (m : Native A) (f : A -> B) (e : Engine) :
  (x <- m ;; ret (f x)) e = andThen m f e.
Proof.
  unfold bind, ret, andThen. now destruct (m e).
Qed.

Lemma snd_andThen {A B : Type} (m : Native A) (f : A -> B) (e : Engine) :
  snd (andThen m f e) = snd (m e).
Proof. reflexivity. Qed.

Lemma fst_andThen {A B : Type} (m : Native A) (f : A -> B) (e : Engine) :
  fst (andThen m f e) = f (fst (m e)).
Proof. reflexivity. Qed.

Lemma search_files_run query maxResults matchCase matchWholeWord regex e :
  search_files index query maxResults matchCase matchWholeWord regex e
  = andThen (searchWithEverything index query
               (search_files_options maxResults matchCase matchWholeWord regex))
            (search_files_response query) e.
Proof. unfold search_files. now rewrite bind_ret_andThen. Qed.

Lemma search_files_advanced_run query path extension size dateModified
  maxResults matchCase matchWholeWord regex sortBy e :
  search_files_advanced index query path extension size dateModified
    maxResults matchCase matchWholeWord regex sortBy e
  = andThen (searchWithEverything index
               (advancedQuery query path extension size dateModified)
               (search_files_advanced_options maxResults matchCase
                  matchWholeWord regex sortBy))
            (search_files_advanced_response query path extension size
               dateModified (withDefault "name_asc" sortBy)) e.
Proof. unfold search_files_advanced. now rewrite bind_ret_andThen. Qed.

Lemma find_duplicates_run filename path maxResults e :
  find_duplicates index filename path maxResults e
  = andThen (searchWithEverything index (duplicatesQuery filename path)
               (find_duplicates_options maxResults))
            (find_duplicates_response filename) e.
Proof. unfold find_duplicates. now rewrite bind_ret_andThen. Qed.

Lemma search_content_run content fileTypes path maxResults e :
  search_content index content fileTypes path maxResults e
  = andThen (searchWithEverything index (contentQuery content fileTypes path)
               (search_content_options maxResults))
            (search_content_response content) e.
Proof. unfold search_content. now rewrite bind_ret_andThen. Qed.

(** A search does not look at the engine it starts from. *)
Lemma searchWithEverything_any_engine query options (e1 e2 : Engine) :
  searchWithEverything index query options e1
  = searchWithEverything index query options e2.
Proof. now rewrite !searchWithEverything_run. Qed.

Lemma andThen_search_any_engine {B : Type} query options (f : QueryOutcome -> B)
  (e1 e2 : Engine) :
  andThen (searchWithEverything index query options) f e1
  = andThen (searchWithEverything index query options) f e2.
Proof.
  unfold andThen. now rewrite (searchWithEverything_any_engine query options e1 e2).
Qed.

Lemma context_after_search query options e :
  context (snd (searchWithEverything index query options e))
  = configuredContext query options.
Proof.
  rewrite searchWithEverything_run.
  now destruct (index (configuredContext query options)).
Qed.

End Handlers.

(** ** The search: result list, total and query context *)

(** C9: for every successful call of [searchWithEverything] the length of
    the returned results list equals the returned [totalResults]; both are
    the value of [Everything_GetNumResults] read after the query, that is
    the size of the window that the result cap left visible, and the
    results are exactly one formatted line per index from 0 to that value
    minus 1, in order. *)
Theorem results_length_is_totalResults :
  forall (index : QueryContext -> QueryReply) (query : string) (options : Options)
         (e e' : Engine) (o : QueryOutcome),
    searchWithEverything index query options e = (o, e') ->
    error o = None ->
    lengthOf (results o) = totalResults o
    /\ totalResults o = fst (Everything_GetNumResults e')
    /\ results o = map (lineAt e') (map Z.of_nat (seq 0 (Z.to_nat (totalResults o))))
    /\ exists rows, index (context e') = QueryMatches rows
                    /\ visible e' = window (context e') rows.
Proof.
  intros index query options e e' o Hrun Hok.
  rewrite searchWithEverything_run in Hrun.
  destruct (index (configuredContext query options)) as [code | rows] eqn:Hreply;
    cbn [outcomeOf] in Hrun; injection Hrun as <- <-; [discriminate Hok |].
  cbn [results totalResults context visible Everything_GetNumResults fst].
  unfold lengthOf. rewrite length_map, Nat2Z.id. repeat split.
  - rewrite map_map. symmetry.
    exact (map_lineAt_visible
             {| context := configuredContext query options;
                lastError := EVERYTHING_OK;
                visible := window (configuredContext query options) rows |}).
  - now exists rows.
Qed.

Lemma results_length_is_totalResults_witness :
  let r := searchWithEverything Fixture.threeFiles "a.txt"
             (search_files_options (Some 2) None None None) Fixture.fresh in
  lengthOf (results (fst r)) = totalResults (fst r)
  /\ totalResults (fst r) = 2.
Proof.
  intro r. split; [| reflexivity].
  apply (results_length_is_totalResults Fixture.threeFiles "a.txt"
           (search_files_options (Some 2) None None None)
           Fixture.fresh (snd r) (fst r)).
  - apply surjective_pairing.
  - reflexivity.
Defined.

(** C7: every tool invocation overwrites all eight configurable engine
    parameters before the query runs: search text, match-case, whole-word
    and regex flags (an absent flag becomes false), maximum result count,
    result offset (always zero), requested result fields and sort order.
    The context the query runs in is written out below; nothing in it
    comes from the engine the call started from, so the outcome of a
    search, the engine it leaves behind and the response of each of the
    four tools are the same from any two engines. *)
Theorem query_context_fully_overwritten :
  forall (index : QueryContext -> QueryReply) (query : string) (options : Options)
         (e1 e2 : Engine),
    context (snd (searchWithEverything index query options e1))
    = {| q_search := query;
         q_matchCase := orFalse (matchCase options);
         q_matchWholeWord := orFalse (matchWholeWord options);
         q_regex := orFalse (regex options);
         q_max := orNumber (maxResults options) 100;
         q_offset := 0;
         q_requestFlags := Z.lor (Z.lor EVERYTHING_REQUEST_FILE_NAME EVERYTHING_REQUEST_PATH)
                             EVERYTHING_REQUEST_FULL_PATH_AND_FILE_NAME;
         q_sort := sortOrderOf (sortBy options) |}
    /\ orFalse None = false
    /\ searchWithEverything index query options e1
       = outcomeOf (configuredContext query options)
                   (index (configuredContext query options))
    /\ searchWithEverything index query options e1
       = searchWithEverything index query options e2
    /\ (forall maxResults matchCase matchWholeWord regex,
          search_files index query maxResults matchCase matchWholeWord regex e1
          = search_files index query maxResults matchCase matchWholeWord regex e2)
    /\ (forall path extension size dateModified maxResults matchCase
               matchWholeWord regex sortBy,
          search_files_advanced index query path extension size dateModified
            maxResults matchCase matchWholeWord regex sortBy e1
          = search_files_advanced index query path extension size dateModified
              maxResults matchCase matchWholeWord regex sortBy e2)
    /\ (forall path maxResults,
          find_duplicates index query path maxResults e1
          = find_duplicates index query path maxResults e2)
    /\ (forall fileTypes path maxResults,
          search_content index query fileTypes path maxResults e1
          = search_content index query fileTypes path maxResults e2).
Proof.
  intros index query options e1 e2.
  split; [apply context_after_search |].
  split; [reflexivity |].
  split; [apply searchWithEverything_run |].
  split; [apply searchWithEverything_any_engine |].
  split; [| split; [| split]]; intros.
  - rewrite !search_files_run. apply andThen_search_any_engine.
  - rewrite !search_files_advanced_run. apply andThen_search_any_engine.
  - rewrite !find_duplicates_run. apply andThen_search_any_engine.
  - rewrite !search_content_run. apply andThen_search_any_engine.
Qed.

(** C8: for every tool and every fixed engine index (unchanged file set),
    calling the tool twice in a row with identical parameters, the second
    call starting from the engine the first one left behind, yields the
    same ordered result lines and the same response, text and error
    flag. *)
Theorem repeated_call_same_response :
  forall (index : QueryContext -> QueryReply) (e : Engine),
    (forall query options,
       let first := searchWithEverything index query options e in
       let second := searchWithEverything index query options (snd first) in
       results (fst second) = results (fst first) /\ fst second = fst first)
    /\ (forall query maxResults matchCase matchWholeWord regex,
          let call := search_files index query maxResults matchCase matchWholeWord regex in
          fst (call (snd (call e))) = fst (call e))
    /\ (forall query path extension size dateModified maxResults matchCase
               matchWholeWord regex sortBy,
          let call := search_files_advanced index query path extension size
                        dateModified maxResults matchCase matchWholeWord regex sortBy in
          fst (call (snd (call e))) = fst (call e))
    /\ (forall filename path maxResults,
          let call := find_duplicates index filename path maxResults in
          fst (call (snd (call e))) = fst (call e))
    /\ (forall content fileTypes path maxResults,
          let call := search_content index content fileTypes path maxResults in
          fst (call (snd (call e))) = fst (call e)).
Proof.
  intros index e. split; [| split; [| split; [| split]]]; intros.
  - assert (H : fst second = fst first)
      by (unfold second;
          now rewrite (searchWithEverything_any_engine index query options _ e)).
    now rewrite H.
  - unfold call. rewrite !search_files_run.
    apply (f_equal fst), andThen_search_any_engine.
  - unfold call. rewrite !search_files_advanced_run.
    apply (f_equal fst), andThen_search_any_engine.
  - unfold call. rewrite !find_duplicates_run.
    apply (f_equal fst), andThen_search_any_engine.
  - unfold call. rewrite !search_content_run.
    apply (f_equal fst), andThen_search_any_engine.
Qed.

Lemma results_are_formatted_rows :
  forall (index : QueryContext -> QueryReply) (query : string) (options : Options)
         (e e' : Engine) (o : QueryOutcome),
    searchWithEverything index query options e = (o, e') ->
    error o = None ->
    results o = map formatRow (visible e').
Proof.
  intros index query options e e' o Hrun Hok.
  rewrite searchWithEverything_run in Hrun.
  destruct (index (configuredContext query options)) as [code | rows];
    cbn [outcomeOf] in Hrun; injection Hrun as <- <-; [discriminate Hok | reflexivity].
Qed.

(** ** Formatting one row *)

Lemma typeOf_cases (isFile isFolder : bool) :
  In (typeOf isFile isFolder) ["[FILE]"; "[FOLDER]"; "[UNKNOWN]"].
Proof.
  destruct isFile, isFolder; simpl; auto.
Qed.

(** C6: for every result row with a directory path and a file name, the
    full path is the directory path, a backslash and the file name, the
    backslash being inserted only when the directory path does not already
    end with one; the formatted line is the type tag, a space and that full
    path.  Directory [C:\Users\x] and file [a.txt] give [C:\Users\x\a.txt],
    and so does the directory [C:\Users\x\], with no doubled separator. *)
Theorem full_path_joins_with_one_separator :
  forall (dir name : string),
    dir <> EmptyString -> name <> EmptyString ->
    ((exists d, dir = d ++ backslash) ->
       fullPathOf (Some dir) (Some name) = dir ++ name)
    /\ ((~ exists d, dir = d ++ backslash) ->
          fullPathOf (Some dir) (Some name) = dir ++ backslash ++ name)
    /\ (forall d, fullPathOf (Some (d ++ backslash)) (Some name)
                  = d ++ backslash ++ name)
    /\ (forall isFile isFolder,
          formatRow {| fileName := Some name; directoryPath := Some dir;
                       isFile := isFile; isFolder := isFolder |}
          = typeOf isFile isFolder ++ " " ++ fullPathOf (Some dir) (Some name))
    /\ fullPathOf (Some "C:\Users\x") (Some "a.txt") = "C:\Users\x\a.txt"
    /\ fullPathOf (Some ("C:\Users\x" ++ backslash)) (Some "a.txt") = "C:\Users\x\a.txt".
Proof.
  intros dir name Hdir Hname.
  assert (Hjoin : forall p, p <> EmptyString ->
            fullPathOf (Some p) (Some name)
            = if endsWith p backslash then p ++ name else p ++ backslash ++ name).
  { intros p Hp. unfold fullPathOf.
    apply truthy_Some in Hp, Hname. now rewrite Hp, Hname. }
  split; [| split; [| split; [| split; [| split]]]].
  - intros Hends. apply endsWith_iff in Hends. now rewrite Hjoin, Hends.
  - intros Hends. rewrite Hjoin by assumption.
    destruct (endsWith dir backslash) eqn:E; [| reflexivity].
    apply endsWith_iff in E. contradiction.
  - intros d. rewrite Hjoin.
    + assert (E : endsWith (d ++ backslash) backslash = true)
        by (apply endsWith_iff; now exists d).
      rewrite E. apply append_assoc.
    + destruct d; discriminate.
  - reflexivity.
  - reflexivity.
  - reflexivity.
Qed.

Lemma full_path_joins_with_one_separator_witness :
  fullPathOf (Some "D:\backup") (Some "notes.md") = "D:\backup\notes.md".
Proof.
  refine (proj1 (proj2 (full_path_joins_with_one_separator "D:\backup" "notes.md" _ _)) _).
  - discriminate.
  - discriminate.
  - intros Hends. apply endsWith_iff in Hends. discriminate Hends.
Defined.

(** C10: the formatter is total over degenerate rows.  When the directory
    path of a row is empty or absent and the file name is present, the full
    path is the file name alone; when both are empty or absent it is the
    empty string; and every row, whatever it holds, gives exactly one line:
    one of the tags [FILE], [FOLDER], [UNKNOWN], a space and the full path.
    A successful search returns one such line per visible row, in order. *)
Theorem degenerate_rows_are_formatted :
  forall r : ResultRow,
    (forall name, truthy (directoryPath r) = false ->
                  fileName r = Some name -> name <> EmptyString ->
                  fullPathOf (directoryPath r) (fileName r) = name)
    /\ (truthy (directoryPath r) = false -> truthy (fileName r) = false ->
        fullPathOf (directoryPath r) (fileName r) = EmptyString)
    /\ (exists tag, In tag ["[FILE]"; "[FOLDER]"; "[UNKNOWN]"]
                    /\ formatRow r
                       = tag ++ " " ++ fullPathOf (directoryPath r) (fileName r))
    /\ (forall index query options e e' o,
          searchWithEverything index query options e = (o, e') ->
          error o = None ->
          results o = map formatRow (visible e')
          /\ List.length (results o) = List.length (visible e')).
Proof.
  intros [name dir file folder]; cbn [fileName directoryPath isFile isFolder].
  split; [| split; [| split]].
  - intros f Hdir -> Hf. unfold fullPathOf.
    apply truthy_Some in Hf. rewrite Hdir, Hf.
    now destruct dir.
  - intros Hdir Hname. unfold fullPathOf. rewrite Hdir, Hname.
    now destruct dir, name.
  - exists (typeOf file folder). split; [apply typeOf_cases | reflexivity].
  - intros index query options e e' o Hrun Hok.
    rewrite (results_are_formatted_rows index query options e e' o Hrun Hok).
    split; [reflexivity | apply length_map].
Qed.

Lemma degenerate_rows_are_formatted_witness :
  fullPathOf None (Some "a.txt") = "a.txt"
  /\ fullPathOf (Some EmptyString) None = EmptyString
  /\ (let r := searchWithEverything Fixture.threeFiles "a.txt"
                 (search_files_options None None None None) Fixture.fresh in
      List.length (results (fst r)) = List.length (visible (snd r))).
Proof.
  split; [| split].
  3: { intro r.
       apply (proj2 (proj2 (proj2 (degenerate_rows_are_formatted Fixture.report1)))
                Fixture.threeFiles "a.txt" (search_files_options None None None None)
                Fixture.fresh (snd r) (fst r));
         [apply surjective_pairing | reflexivity]. }
  - apply (proj1 (degenerate_rows_are_formatted
                    {| fileName := Some "a.txt"; directoryPath := None;
                       isFile := false; isFolder := false |}) "a.txt");
      [reflexivity | reflexivity | discriminate].
  - apply (proj1 (proj2 (degenerate_rows_are_formatted
                    {| fileName := None; directoryPath := Some EmptyString;
                       isFile := false; isFolder := false |})));
      reflexivity.
Defined.

(** ** Failure of the native query *)

Lemma errorMessageOf_truthy (errorCode : Z) :
  truthy (Some (errorMessageOf errorCode)) = true.
Proof.
  unfold errorMessageOf.
  repeat match goal with
         | |- context [if ?b then _ else _] => destruct b; [reflexivity |]
         end.
  reflexivity.
Qed.

Lemma errorMessageOf_unmapped (errorCode : Z) :
  errorCode < 1 \/ 9 < errorCode ->
  errorMessageOf errorCode
  = "Everything query failed with error code: " ++ toString errorCode.
Proof.
  intros Hrange. unfold errorMessageOf, EVERYTHING_ERROR_MEMORY, EVERYTHING_ERROR_IPC,
    EVERYTHING_ERROR_REGISTERCLASSEX, EVERYTHING_ERROR_CREATEWINDOW,
    EVERYTHING_ERROR_CREATETHREAD, EVERYTHING_ERROR_INVALIDINDEX,
    EVERYTHING_ERROR_INVALIDCALL, EVERYTHING_ERROR_INVALIDREQUEST,
    EVERYTHING_ERROR_INVALIDPARAMETER.
  repeat match goal with
         | |- context [if ?n =? ?k then _ else _] =>
             destruct (Z.eqb_spec n k); [lia |]
         end.
  reflexivity.
Qed.

Section Failure.

Variable index : QueryContext -> QueryReply.
Variable code : Z.

Lemma search_failure query options e :
  index (configuredContext query options) = QueryFailed code ->
  searchWithEverything index query options e
  = ({| results := []; totalResults := 0; error := Some (errorMessageOf code) |},
     {| context := configuredContext query options; lastError := code;
        visible := [] |}).
Proof.
  intros Hfail. now rewrite searchWithEverything_run, Hfail.
Qed.

Lemma error_response (o : QueryOutcome) :
  error o = Some (errorMessageOf code) ->
  truthy (error o) = true
  /\ valueOf (error o) = errorMessageOf code.
Proof.
  intros ->. split; [apply errorMessageOf_truthy | reflexivity].
Qed.

End Failure.

(** C3, as the code has it: when the native query call fails the adapter
    reads the engine's last-error code and maps the codes 1 to 9 to nine
    fixed messages and every other code N to the generic message ending in
    [error code: N]; the search returns that message as its error, with no
    results.  The response of a tool is then error-flagged and its text is
    the message after the prefix [Error: ] (and, for search_content, before
    the note on content indexing): for error code 2 the text of
    search_files is [Error: Everything search client is not running]. *)
Theorem native_failure_is_reported :
  forall (index : QueryContext -> QueryReply) (code : Z),
    (errorMessageOf 1 = "Out of memory"
     /\ errorMessageOf 2 = "Everything search client is not running"
     /\ errorMessageOf 3 = "Unable to register window class"
     /\ errorMessageOf 4 = "Unable to create listening window"
     /\ errorMessageOf 5 = "Unable to create listening thread"
     /\ errorMessageOf 6 = "Invalid index"
     /\ errorMessageOf 7 = "Invalid call"
     /\ errorMessageOf 8 = "Invalid request data, request data first"
     /\ errorMessageOf 9 = "Bad parameter")
    /\ (forall n, n < 1 \/ 9 < n ->
          errorMessageOf n = "Everything query failed with error code: " ++ toString n)
    /\ (forall query options e,
          index (configuredContext query options) = QueryFailed code ->
          fst (searchWithEverything index query options e)
          = {| results := []; totalResults := 0; error := Some (errorMessageOf code) |}
          /\ fst (Everything_GetLastError
                    (snd (searchWithEverything index query options e))) = code)
    /\ (forall query maxResults matchCase matchWholeWord regex e,
          index (configuredContext query
                   (search_files_options maxResults matchCase matchWholeWord regex))
          = QueryFailed code ->
          fst (search_files index query maxResults matchCase matchWholeWord regex e)
          = {| text := "Error: " ++ errorMessageOf code; isError := true |})
    /\ (forall query path extension size dateModified maxResults matchCase
               matchWholeWord regex sortBy e,
          index (configuredContext
                   (advancedQuery query path extension size dateModified)
                   (search_files_advanced_options maxResults matchCase
                      matchWholeWord regex sortBy))
          = QueryFailed code ->
          fst (search_files_advanced index query path extension size dateModified
                 maxResults matchCase matchWholeWord regex sortBy e)
          = {| text := "Error: " ++ errorMessageOf code; isError := true |})
    /\ (forall filename path maxResults e,
          index (configuredContext (duplicatesQuery filename path)
                   (find_duplicates_options maxResults))
          = QueryFailed code ->
          fst (find_duplicates index filename path maxResults e)
          = {| text := "Error: " ++ errorMessageOf code; isError := true |})
    /\ (forall content fileTypes path maxResults e,
          index (configuredContext (contentQuery content fileTypes path)
                   (search_content_options maxResults))
          = QueryFailed code ->
          fst (search_content index content fileTypes path maxResults e)
          = {| text := "Error: " ++ errorMessageOf code ++ ". " ++ contentNote;
               isError := true |})
    /\ "Error: " ++ errorMessageOf 2 = "Error: Everything search client is not running".
Proof.
  intros index code.
  split; [repeat split |].
  split; [exact errorMessageOf_unmapped |].
  split; [| split; [| split; [| split; [| split]]]].
  - intros query options e Hfail.
    now rewrite (search_failure index code query options e Hfail).
  - intros query maxResults matchCase matchWholeWord regex e Hfail.
    rewrite search_files_run. unfold andThen.
    rewrite (search_failure index code _ _ e Hfail). cbn [fst].
    unfold search_files_response. cbn [error].
    now rewrite errorMessageOf_truthy.
  - intros query path extension size dateModified maxResults matchCase
      matchWholeWord regex sortBy e Hfail.
    rewrite search_files_advanced_run. unfold andThen.
    rewrite (search_failure index code _ _ e Hfail). cbn [fst].
    unfold search_files_advanced_response. cbn [error].
    now rewrite errorMessageOf_truthy.
  - intros filename path maxResults e Hfail.
    rewrite find_duplicates_run. unfold andThen.
    rewrite (search_failure index code _ _ e Hfail). cbn [fst].
    unfold find_duplicates_response. cbn [error].
    now rewrite errorMessageOf_truthy.
  - intros content fileTypes path maxResults e Hfail.
    rewrite search_content_run. unfold andThen.
    rewrite (search_failure index code _ _ e Hfail). cbn [fst].
    unfold search_content_response. cbn [error].
    now rewrite errorMessageOf_truthy.
  - reflexivity.
Qed.

Lemma native_failure_is_reported_witness :
  fst (search_files Fixture.notRunning "readme" None None None None Fixture.fresh)
  = {| text := "Error: Everything search client is not running"; isError := true |}
  /\ errorMessageOf 10 = "Everything query failed with error code: 10".
Proof.
  split.
  - apply (proj1 (proj2 (proj2 (proj2
             (native_failure_is_reported Fixture.notRunning EVERYTHING_ERROR_IPC))))).
    reflexivity.
  - apply (proj1 (proj2 (native_failure_is_reported Fixture.notRunning 2)) 10). lia.
Defined.

(** C3 as stated fails: with the engine process not running (error code
    2), the response of search_files is error-flagged but its text is not
    the bare message; it carries the prefix [Error: ]. *)
Lemma native_failure_text_is_prefixed :
  let response :=
    fst (search_files Fixture.notRunning "readme" None None None None Fixture.fresh) in
  isError response = true
  /\ lastError (snd (search_files Fixture.notRunning "readme" None None None None
                       Fixture.fresh)) = 2
  /\ text response = "Error: Everything search client is not running"
  /\ text response <> "Everything search client is not running".
Proof.
  cbv zeta. repeat split. vm_compute. discriminate.
Qed.

(** ** Query assembly *)

Lemma prependFilter_filterText (filter : option string) (clause : string -> string)
  (searchQuery : string) :
  prependFilter filter clause searchQuery = filterText filter clause ++ searchQuery.
Proof.
  unfold prependFilter, filterText, given.
  destruct filter as [v |]; [| reflexivity].
  destruct (truthy (Some v)); [| reflexivity].
  now rewrite append_assoc.
Qed.

Lemma filterText_given (v : string) (clause : string -> string) :
  v <> EmptyString -> filterText (Some v) clause = clause v ++ " ".
Proof.
  intros Hv. apply truthy_Some in Hv. unfold filterText, given. now rewrite Hv.
Qed.

Lemma filterText_absent (clause : string -> string) :
  filterText None clause = EmptyString /\ filterText (Some EmptyString) clause = EmptyString.
Proof. now split. Qed.

Lemma split_not_nil (sep : ascii) (s : string) : split sep s <> [].
Proof.
  destruct s as [|c s]; simpl; [discriminate |].
  destruct (Ascii.eqb c sep); [discriminate |].
  destruct (split sep s); discriminate.
Qed.

(** Joining the entries of a split with the separator gives the string
    back: the entries are the pieces between the separators, in order. *)
Lemma join_split (sep : ascii) (s : string) :
  join (String sep EmptyString) (split sep s) = s.
Proof.
  unfold join. induction s as [|c s IH]; [reflexivity |].
  cbn [split]. pose proof (split_not_nil sep s) as Hnil.
  destruct (split sep s) as [|w ws]; [contradiction |].
  destruct (Ascii.eqb_spec c sep) as [-> | Hne].
  - rewrite <- IH. reflexivity.
  - rewrite <- IH. destruct ws; reflexivity.
Qed.

(** C2: search_files_advanced assembles the search text by prepending,
    each only if provided (tested for truthiness: present and not empty),
    the clause for path, then extension, then size, then dateModified in
    front of the growing string, so the text reads date, size, extension,
    path, query from left to right; with all four given it is
    [dm:<dateModified> size:<size> ext:<extension> path:"<path>" <query>].
    For query [report], path [C:\Docs] and extension [pdf] it is
    [ext:pdf path:"C:\Docs" report].  This text is the search text that the
    handler configures in the engine. *)
Theorem advanced_query_assembly :
  forall (query : string) (path extension size dateModified : option string),
    advancedQuery query path extension size dateModified
    = filterText dateModified dmClause ++ filterText size sizeClause
        ++ filterText extension extClause ++ filterText path pathClause ++ query
    /\ (forall p x s d,
          path = Some p -> extension = Some x -> size = Some s ->
          dateModified = Some d ->
          p <> EmptyString -> x <> EmptyString -> s <> EmptyString ->
          d <> EmptyString ->
          advancedQuery query path extension size dateModified
          = "dm:" ++ d ++ " size:" ++ s ++ " ext:" ++ x
              ++ " path:" ++ quote ++ p ++ quote ++ " " ++ query)
    /\ advancedQuery query None None None None = query
    /\ advancedQuery "report" (Some "C:\Docs") (Some "pdf") None None
       = "ext:pdf path:" ++ quote ++ "C:\Docs" ++ quote ++ " report"
    /\ (forall index maxResults matchCase matchWholeWord regex sortBy e,
          q_search (context (snd (search_files_advanced index query path extension
                                    size dateModified maxResults matchCase
                                    matchWholeWord regex sortBy e)))
          = advancedQuery query path extension size dateModified).
Proof.
  intros query path extension size dateModified.
  assert (Hform : forall q p x s d,
            advancedQuery q p x s d
            = filterText d dmClause ++ filterText s sizeClause
                ++ filterText x extClause ++ filterText p pathClause ++ q).
  { intros. unfold advancedQuery. now rewrite !prependFilter_filterText. }
  split; [apply Hform |].
  split; [| split; [| split]].
  - intros p x s d -> -> -> -> Hp Hx Hs Hd.
    rewrite Hform, !filterText_given by assumption.
    unfold dmClause, sizeClause, extClause, pathClause.
    rewrite !append_assoc. vm_compute. reflexivity.
  - reflexivity.
  - vm_compute. reflexivity.
  - intros. rewrite search_files_advanced_run. rewrite snd_andThen.
    now rewrite context_after_search.
Qed.

Lemma advanced_query_assembly_witness :
  advancedQuery "report" (Some "C:\Docs") (Some "pdf") (Some ">1mb") (Some "today")
  = "dm:today size:>1mb ext:pdf path:" ++ quote ++ "C:\Docs" ++ quote ++ " report".
Proof.
  apply (proj1 (proj2 (advanced_query_assembly "report" (Some "C:\Docs") (Some "pdf")
                         (Some ">1mb") (Some "today")))
           "C:\Docs" "pdf" ">1mb" "today");
    try reflexivity; discriminate.
Defined.

(** ** Result cap and reported total *)

Lemma window_within_max (c : QueryContext) (rows : list ResultRow) :
  0 <= q_max c -> Z.of_nat (List.length (window c rows)) <= q_max c.
Proof.
  intros Hmax. unfold window. rewrite length_firstn. lia.
Qed.

(** The total that a search reports is the number of lines it returns,
    on every call. *)
Lemma reported_total_is_line_count :
  forall (index : QueryContext -> QueryReply) (query : string) (options : Options)
         (e : Engine),
    totalResults (fst (searchWithEverything index query options e))
    = lengthOf (results (fst (searchWithEverything index query options e))).
Proof.
  intros. rewrite searchWithEverything_run.
  destruct (index (configuredContext query options)); cbn [outcomeOf fst results totalResults].
  - reflexivity.
  - unfold lengthOf. now rewrite length_map.
Qed.

(** C1 at a failing input: three files match, search_files is called with
    maxResults 2.  The response has two result lines, within the bound,
    but the total it reports is 2, the size of the capped window, and not
    3, the number of matches. *)
Theorem search_files_reports_window_size :
  Fixture.threeFiles
    (configuredContext "a.txt" (search_files_options (Some 2) None None None))
  = QueryMatches [Fixture.report1; Fixture.report2; Fixture.report3]
  /\ fst (search_files Fixture.threeFiles "a.txt" (Some 2) None None None Fixture.fresh)
     = {| text := "Found 2 files (showing 2):" ++ newline ++ newline
                    ++ "[FILE] C:\Users\x\a.txt" ++ newline
                    ++ "[FILE] D:\backup\a.txt";
          isError := false |}
  /\ totalResults (fst (searchWithEverything Fixture.threeFiles "a.txt"
                          (search_files_options (Some 2) None None None)
                          Fixture.fresh)) = 2.
Proof.
  repeat split.
Qed.

(** ** find_duplicates *)

(** X10: What the handler of find_duplicates does with the outcome of its
    search: the query and the flags it configures, and the three texts,
    chosen by [totalResults]. *)
Lemma find_duplicates_by_totalResults :
  forall (filename : string) (path : option string),
    duplicatesQuery filename path = filterText path pathClause ++ filename
    /\ (forall index maxResults e,
          let c := context (snd (find_duplicates index filename path maxResults e)) in
          q_search c = duplicatesQuery filename path
          /\ q_matchWholeWord c = true /\ q_matchCase c = false /\ q_regex c = false)
    /\ (forall o, error o = None ->
          isError (find_duplicates_response filename o) = false
          /\ (totalResults o = 0 ->
              includes (text (find_duplicates_response filename o)) "No files found")
          /\ (totalResults o = 1 ->
              includes (text (find_duplicates_response filename o))
                       "Found only 1 instance")
          /\ (2 <= totalResults o ->
              includes (text (find_duplicates_response filename o))
                       ("Found " ++ toString (totalResults o) ++ " instances"))).
Proof.
  intros filename path. split; [| split].
  - unfold duplicatesQuery. apply prependFilter_filterText.
  - intros index maxResults e c. subst c.
    rewrite find_duplicates_run. rewrite snd_andThen.
    now rewrite context_after_search.
  - intros o Hok. unfold find_duplicates_response. rewrite Hok. cbn [truthy isError text].
    split; [reflexivity |]. split; [| split].
    + intros ->. cbn [Z.ltb Z.eqb Z.compare].
      exists EmptyString, (" with name " ++ quote ++ filename ++ quote).
      vm_compute. reflexivity.
    + intros ->. cbn [Z.ltb Z.eqb Z.compare Pos.compare Pos.compare_cont Pos.eqb].
      exists EmptyString,
        (" of " ++ quote ++ filename ++ quote ++ ":" ++ newline ++ newline
           ++ nth 0 (results o) "undefined").
      vm_compute. reflexivity.
    + intros Hn. destruct (Z.ltb_spec 1 (totalResults o)); [| lia].
      exists EmptyString,
        (" of " ++ quote ++ filename ++ quote ++ " (showing "
           ++ toString (lengthOf (results o)) ++ "):" ++ newline ++ newline
           ++ join newline (results o)).
      change (EmptyString ++ ?x) with x.
      rewrite !append_assoc. reflexivity.
Qed.

(** C4 at a failing input: three files named [a.txt] exist.  With
    maxResults 1 find_duplicates answers [Found only 1 instance], and with
    maxResults 2 it answers [Found 2 instances]: the number in the text is
    the size of the capped window, which is the line count, not the number
    of matches. *)
Theorem find_duplicates_counts_window :
  Fixture.threeFiles
    (configuredContext (duplicatesQuery "a.txt" None) (find_duplicates_options (Some 1)))
  = QueryMatches [Fixture.report1; Fixture.report2; Fixture.report3]
  /\ fst (find_duplicates Fixture.threeFiles "a.txt" None (Some 1) Fixture.fresh)
     = {| text := "Found only 1 instance of " ++ quote ++ "a.txt" ++ quote ++ ":"
                    ++ newline ++ newline ++ "[FILE] C:\Users\x\a.txt";
          isError := false |}
  /\ fst (find_duplicates Fixture.threeFiles "a.txt" None (Some 2) Fixture.fresh)
     = {| text := "Found 2 instances of " ++ quote ++ "a.txt" ++ quote
                    ++ " (showing 2):" ++ newline ++ newline
                    ++ "[FILE] C:\Users\x\a.txt" ++ newline
                    ++ "[FILE] D:\backup\a.txt";
          isError := false |}.
Proof.
  repeat split.
Qed.

(** X16: A row with a directory path but no file name keeps nothing of the
    directory: its full path is empty. *)
Lemma full_path_without_file_name (dir : option string) :
  fullPathOf dir None = EmptyString
  /\ fullPathOf dir (Some EmptyString) = EmptyString.
Proof.
  unfold fullPathOf. now destruct (truthy dir).
Qed.

(** * Further properties of the adapter *)

(** ** Which matches a search returns *)

Lemma configured_max (query : string) (options : Options) (m : Z) :
  maxResults options = Some m -> 1 <= m ->
  q_max (configuredContext query options) = m
  /\ q_offset (configuredContext query options) = 0.
Proof.
  intros Hopt Hm. cbn [configuredContext q_max q_offset]. rewrite Hopt.
  unfold orNumber. destruct (Z.eqb_spec m 0); [lia | now split].
Qed.

Lemma window_from_start (c : QueryContext) (rows : list ResultRow) (m : Z) :
  q_max c = m -> q_offset c = 0 -> window c rows = firstn (Z.to_nat m) rows.
Proof.
  intros Hmax Hoff. unfold window. now rewrite Hmax, Hoff.
Qed.

(** X2: The result offset is always zero and nothing is reordered: the lines of
    a successful search are the formatted matches of the engine, in the
    engine's order, cut after the first [maxResults] of them; their number
    is the smaller of [maxResults] and the number of matches. *)
Theorem results_are_first_matches :
  forall (index : QueryContext -> QueryReply) (query : string) (options : Options)
         (e : Engine) (rows : list ResultRow) (m : Z),
    maxResults options = Some m -> 1 <= m ->
    index (configuredContext query options) = QueryMatches rows ->
    results (fst (searchWithEverything index query options e))
    = firstn (Z.to_nat m) (map formatRow rows)
    /\ totalResults (fst (searchWithEverything index query options e))
       = Z.min m (Z.of_nat (List.length rows))
    /\ error (fst (searchWithEverything index query options e)) = None.
Proof.
  intros index query options e rows m Hopt Hm Hreply.
  destruct (configured_max query options m Hopt Hm) as [Hmax Hoff].
  rewrite searchWithEverything_run, Hreply. cbn [outcomeOf fst results totalResults error].
  rewrite (window_from_start _ rows m Hmax Hoff).
  split; [symmetry; apply firstn_map |].
  split; [| reflexivity].
  rewrite length_firstn. lia.
Qed.

Lemma results_are_first_matches_witness :
  results (fst (searchWithEverything Fixture.threeFiles "a.txt"
                  (search_content_options (Some 2)) Fixture.fresh))
  = ["[FILE] C:\Users\x\a.txt"; "[FILE] D:\backup\a.txt"].
Proof.
  apply (proj1 (results_are_first_matches Fixture.threeFiles "a.txt"
                  (search_content_options (Some 2)) Fixture.fresh
                  [Fixture.report1; Fixture.report2; Fixture.report3] 2
                  eq_refl ltac:(lia) eq_refl)).
Defined.

(** X3: When the matches fit under the cap nothing is cut: every match gives a
    line and the reported total is the number of matches. *)
Theorem search_complete_under_cap :
  forall (index : QueryContext -> QueryReply) (query : string) (options : Options)
         (e : Engine) (rows : list ResultRow) (m : Z),
    maxResults options = Some m ->
    Z.of_nat (List.length rows) <= m -> 1 <= m ->
    index (configuredContext query options) = QueryMatches rows ->
    fst (searchWithEverything index query options e)
    = {| results := map formatRow rows;
         totalResults := Z.of_nat (List.length rows);
         error := None |}.
Proof.
  intros index query options e rows m Hopt Hfit Hm Hreply.
  destruct (configured_max query options m Hopt Hm) as [Hmax Hoff].
  rewrite searchWithEverything_run, Hreply. cbn [outcomeOf fst].
  rewrite (window_from_start _ rows m Hmax Hoff).
  now rewrite firstn_all2 by lia.
Qed.

Lemma search_complete_under_cap_witness :
  totalResults (fst (searchWithEverything Fixture.threeFiles "a.txt"
                       (search_files_options (Some 5) None None None) Fixture.fresh))
  = 3.
Proof.
  rewrite (search_complete_under_cap Fixture.threeFiles "a.txt"
             (search_files_options (Some 5) None None None) Fixture.fresh
             [Fixture.report1; Fixture.report2; Fixture.report3] 5
             eq_refl ltac:(simpl; lia) ltac:(lia) eq_refl).
  reflexivity.
Defined.

(** ** What each tool asks of the engine *)

Lemma orFalse_Some (b : bool) : orFalse (Some b) = b.
Proof. now destruct b. Qed.

(** X4: The query context that each of the four tools configures, with the
    defaults of its handler: search_files, find_duplicates and
    search_content always sort by name ascending; find_duplicates always
    matches whole words, case-insensitively and without regex;
    search_content sets all three match flags to false; an absent flag of
    the other two tools is false and an absent [sortBy] is name
    ascending. *)
Theorem tools_configure_engine :
  forall (index : QueryContext -> QueryReply) (e : Engine),
    (forall query maxResults matchCase matchWholeWord regex,
       context (snd (search_files index query maxResults matchCase
                       matchWholeWord regex e))
       = {| q_search := query;
            q_matchCase := withDefault false matchCase;
            q_matchWholeWord := withDefault false matchWholeWord;
            q_regex := withDefault false regex;
            q_max := orNumber (Some (withDefault 20 maxResults)) 100;
            q_offset := 0; q_requestFlags := 7;
            q_sort := EVERYTHING_SORT_NAME_ASCENDING |})
    /\ (forall query path extension size dateModified maxResults matchCase
               matchWholeWord regex sortBy,
          context (snd (search_files_advanced index query path extension size
                          dateModified maxResults matchCase matchWholeWord regex
                          sortBy e))
          = {| q_search := advancedQuery query path extension size dateModified;
               q_matchCase := withDefault false matchCase;
               q_matchWholeWord := withDefault false matchWholeWord;
               q_regex := withDefault false regex;
               q_max := orNumber (Some (withDefault 100 maxResults)) 100;
               q_offset := 0; q_requestFlags := 7;
               q_sort := sortOrderOf (Some (withDefault "name_asc" sortBy)) |})
    /\ (forall filename path maxResults,
          context (snd (find_duplicates index filename path maxResults e))
          = {| q_search := duplicatesQuery filename path;
               q_matchCase := false; q_matchWholeWord := true; q_regex := false;
               q_max := orNumber (Some (withDefault 50 maxResults)) 100;
               q_offset := 0; q_requestFlags := 7;
               q_sort := EVERYTHING_SORT_NAME_ASCENDING |})
    /\ (forall content fileTypes path maxResults,
          context (snd (search_content index content fileTypes path maxResults e))
          = {| q_search := contentQuery content fileTypes path;
               q_matchCase := false; q_matchWholeWord := false; q_regex := false;
               q_max := orNumber (Some (withDefault 50 maxResults)) 100;
               q_offset := 0; q_requestFlags := 7;
               q_sort := EVERYTHING_SORT_NAME_ASCENDING |}).
Proof.
  intros index e. split; [| split; [| split]]; intros.
  - rewrite search_files_run. rewrite snd_andThen.
    rewrite context_after_search. unfold configuredContext, search_files_options.
    cbn [maxResults matchCase matchWholeWord regex sortBy].
    now rewrite !orFalse_Some.
  - rewrite search_files_advanced_run. rewrite snd_andThen.
    rewrite context_after_search.
    unfold configuredContext, search_files_advanced_options.
    cbn [maxResults matchCase matchWholeWord regex sortBy].
    now rewrite !orFalse_Some.
  - rewrite find_duplicates_run. rewrite snd_andThen.
    now rewrite context_after_search.
  - rewrite search_content_run. rewrite snd_andThen.
    now rewrite context_after_search.
Qed.

(** X6: Whatever is searched, sorted or filtered, the adapter asks the engine
    for file name, path and full path only: the size and date-modified
    fields are never requested, also when the results are sorted by size
    or date. *)
Theorem size_and_date_never_requested :
  forall (index : QueryContext -> QueryReply) (query : string) (options : Options)
         (e : Engine),
    let flags :=
      q_requestFlags (context (snd (searchWithEverything index query options e))) in
    Z.land flags EVERYTHING_REQUEST_FILE_NAME = EVERYTHING_REQUEST_FILE_NAME
    /\ Z.land flags EVERYTHING_REQUEST_PATH = EVERYTHING_REQUEST_PATH
    /\ Z.land flags EVERYTHING_REQUEST_FULL_PATH_AND_FILE_NAME
       = EVERYTHING_REQUEST_FULL_PATH_AND_FILE_NAME
    /\ Z.land flags EVERYTHING_REQUEST_SIZE = 0
    /\ Z.land flags EVERYTHING_REQUEST_DATE_MODIFIED = 0.
Proof.
  intros index query options e flags. subst flags.
  rewrite context_after_search. cbn [configuredContext q_requestFlags].
  repeat split.
Qed.

(** X7: The sort switch: the eight admitted values of [sortBy] map to the
    eight sort codes 1 to 6, 13 and 14, different values to different
    codes; any other string, and an absent [sortBy], sorts by name
    ascending, so the code given to the engine is always one of the
    eight. *)
Theorem sort_order_codes :
  map (fun key => sortOrderOf (Some key)) sortKeys = [1; 2; 3; 4; 5; 6; 13; 14]
  /\ (forall a b, In a sortKeys -> In b sortKeys ->
                  sortOrderOf (Some a) = sortOrderOf (Some b) -> a = b)
  /\ (forall other, ~ In other sortKeys ->
                    sortOrderOf (Some other) = EVERYTHING_SORT_NAME_ASCENDING)
  /\ sortOrderOf None = EVERYTHING_SORT_NAME_ASCENDING
  /\ (forall sortBy, In (sortOrderOf sortBy) [1; 2; 3; 4; 5; 6; 13; 14]).
Proof.
  assert (Hother : forall other, ~ In other sortKeys ->
            sortOrderOf (Some other) = EVERYTHING_SORT_NAME_ASCENDING).
  { intros other Hnot. unfold sortOrderOf.
    repeat match goal with
           | |- context [String.eqb other ?k] =>
               destruct (String.eqb_spec other k) as [-> | _];
               [exfalso; apply Hnot; unfold sortKeys; simpl; tauto |]
           end.
    reflexivity. }
  split; [reflexivity |].
  split; [| split; [exact Hother | split; [reflexivity |]]].
  - intros a b Ha Hb. unfold sortKeys in Ha, Hb. simpl in Ha, Hb.
    repeat (destruct Ha as [<- | Ha]; [| try contradiction]);
      repeat (destruct Hb as [<- | Hb]; [| try contradiction]);
      intros Hcode; try reflexivity; vm_compute in Hcode; discriminate Hcode.
  - intros [key |]; [| simpl; auto].
    unfold sortOrderOf.
    repeat match goal with
           | |- context [if ?c then _ else _] => destruct c; [simpl; tauto |]
           end.
    simpl; tauto.
Qed.

Lemma sort_order_codes_witness :
  sortOrderOf (Some "newest") = EVERYTHING_SORT_NAME_ASCENDING
  /\ "date_desc" = "date_desc".
Proof.
  split.
  - apply (proj1 (proj2 (proj2 sort_order_codes)) "newest").
    unfold sortKeys. simpl. intros H.
    repeat (destruct H as [H | H]; [discriminate H |]). exact H.
  - apply (proj1 (proj2 sort_order_codes) "date_desc" "date_desc");
      unfold sortKeys; simpl; tauto.
Defined.

(** ** Responses *)

Lemma search_error_truthy (index : QueryContext -> QueryReply) (query : string)
  (options : Options) (e : Engine) :
  truthy (error (fst (searchWithEverything index query options e))) = true
  <-> exists code, index (configuredContext query options) = QueryFailed code.
Proof.
  rewrite searchWithEverything_run.
  destruct (index (configuredContext query options)) as [code | rows];
    cbn [outcomeOf fst error].
  - rewrite errorMessageOf_truthy. split; [now exists code | reflexivity].
  - split; [discriminate | intros [code Hcode]; discriminate Hcode].
Qed.

Lemma isError_is_truthy_error (o : QueryOutcome) :
  (forall query, isError (search_files_response query o) = truthy (error o))
  /\ (forall query path extension size dateModified sortBy,
        isError (search_files_advanced_response query path extension size
                   dateModified sortBy o) = truthy (error o))
  /\ (forall filename, isError (find_duplicates_response filename o) = truthy (error o))
  /\ (forall content, isError (search_content_response content o) = truthy (error o)).
Proof.
  unfold search_files_response, search_files_advanced_response,
    find_duplicates_response, search_content_response.
  destruct (truthy (error o)); repeat split.
Qed.

(** X8: A response is error-flagged exactly when the native query failed: a
    search that succeeds, with results or without, is never flagged, and a
    failure always is. *)
Theorem error_flag_iff_native_failure :
  forall (index : QueryContext -> QueryReply) (e : Engine),
    (forall query maxResults matchCase matchWholeWord regex,
       isError (fst (search_files index query maxResults matchCase matchWholeWord
                       regex e)) = true
       <-> exists code,
             index (configuredContext query
                      (search_files_options maxResults matchCase matchWholeWord regex))
             = QueryFailed code)
    /\ (forall query path extension size dateModified maxResults matchCase
               matchWholeWord regex sortBy,
          isError (fst (search_files_advanced index query path extension size
                          dateModified maxResults matchCase matchWholeWord regex
                          sortBy e)) = true
          <-> exists code,
                index (configuredContext
                         (advancedQuery query path extension size dateModified)
                         (search_files_advanced_options maxResults matchCase
                            matchWholeWord regex sortBy))
                = QueryFailed code)
    /\ (forall filename path maxResults,
          isError (fst (find_duplicates index filename path maxResults e)) = true
          <-> exists code,
                index (configuredContext (duplicatesQuery filename path)
                         (find_duplicates_options maxResults))
                = QueryFailed code)
    /\ (forall content fileTypes path maxResults,
          isError (fst (search_content index content fileTypes path maxResults e)) = true
          <-> exists code,
                index (configuredContext (contentQuery content fileTypes path)
                         (search_content_options maxResults))
                = QueryFailed code).
Proof.
  intros index e. split; [| split; [| split]]; intros.
  - rewrite search_files_run, fst_andThen.
    rewrite (proj1 (isError_is_truthy_error _)). apply search_error_truthy.
  - rewrite search_files_advanced_run, fst_andThen.
    rewrite (proj1 (proj2 (isError_is_truthy_error _))). apply search_error_truthy.
  - rewrite find_duplicates_run, fst_andThen.
    rewrite (proj1 (proj2 (proj2 (isError_is_truthy_error _)))).
    apply search_error_truthy.
  - rewrite search_content_run, fst_andThen.
    rewrite (proj2 (proj2 (proj2 (isError_is_truthy_error _)))).
    apply search_error_truthy.
Qed.

Lemma error_flag_iff_native_failure_witness :
  isError (fst (search_content Fixture.notRunning "invoice" None None None
                  Fixture.fresh)) = true.
Proof.
  apply (proj2 (proj2 (proj2 (proj2
           (error_flag_iff_native_failure Fixture.notRunning Fixture.fresh)))
           "invoice" None None None)).
  now exists EVERYTHING_ERROR_IPC.
Defined.

Lemma search_without_matches (index : QueryContext -> QueryReply) (query : string)
  (options : Options) (e : Engine) :
  index (configuredContext query options) = QueryMatches [] ->
  fst (searchWithEverything index query options e)
  = {| results := []; totalResults := 0; error := None |}.
Proof.
  intros Hreply. rewrite searchWithEverything_run, Hreply. cbn [outcomeOf fst].
  unfold window. now rewrite skipn_nil, firstn_nil.
Qed.

(** X9: When nothing matches, no tool flags an error.  search_files answers
    [No files found matching "<query>"], find_duplicates
    [No files found with name "<filename>"], search_content
    [No files found containing "<content>"] followed by the note on content
    indexing; search_files_advanced keeps its header, with the count 0, the
    filter summary and the sort key, and puts the no-files sentence where
    the lines would be. *)
Theorem empty_result_responses :
  forall (index : QueryContext -> QueryReply) (e : Engine),
    (forall query maxResults matchCase matchWholeWord regex,
       index (configuredContext query
                (search_files_options maxResults matchCase matchWholeWord regex))
       = QueryMatches [] ->
       fst (search_files index query maxResults matchCase matchWholeWord regex e)
       = {| text := "No files found matching " ++ quote ++ query ++ quote;
            isError := false |})
    /\ (forall query path extension size dateModified maxResults matchCase
               matchWholeWord regex sortBy,
          index (configuredContext
                   (advancedQuery query path extension size dateModified)
                   (search_files_advanced_options maxResults matchCase
                      matchWholeWord regex sortBy))
          = QueryMatches [] ->
          exists summary,
            fst (search_files_advanced index query path extension size dateModified
                   maxResults matchCase matchWholeWord regex sortBy e)
            = {| text := "Found 0 files" ++ summary ++ " (showing 0, sorted by "
                           ++ withDefault "name_asc" sortBy ++ "):"
                           ++ newline ++ newline
                           ++ "No files found matching " ++ quote ++ query ++ quote;
                 isError := false |})
    /\ (forall filename path maxResults,
          index (configuredContext (duplicatesQuery filename path)
                   (find_duplicates_options maxResults))
          = QueryMatches [] ->
          fst (find_duplicates index filename path maxResults e)
          = {| text := "No files found with name " ++ quote ++ filename ++ quote;
               isError := false |})
    /\ (forall content fileTypes path maxResults,
          index (configuredContext (contentQuery content fileTypes path)
                   (search_content_options maxResults))
          = QueryMatches [] ->
          fst (search_content index content fileTypes path maxResults e)
          = {| text := "No files found containing " ++ quote ++ content ++ quote
                         ++ ". " ++ contentNote;
               isError := false |}).
Proof.
  intros index e. split; [| split; [| split]]; intros.
  - rewrite search_files_run, fst_andThen, (search_without_matches _ _ _ _ H).
    reflexivity.
  - rewrite search_files_advanced_run, fst_andThen, (search_without_matches _ _ _ _ H).
    unfold search_files_advanced_response.
    cbn [error truthy results totalResults lengthOf List.length Z.of_nat Z.ltb Z.compare].
    match goal with
    | |- context [if 0 <? lengthOf ?l then _ else _] =>
        destruct (0 <? lengthOf l);
          [exists (" (filtered by " ++ join ", " l ++ ")") | exists EmptyString]
    end.
    + rewrite !append_assoc. reflexivity.
    + reflexivity.
  - rewrite find_duplicates_run, fst_andThen, (search_without_matches _ _ _ _ H).
    reflexivity.
  - rewrite search_content_run, fst_andThen, (search_without_matches _ _ _ _ H).
    reflexivity.
Qed.

Lemma empty_result_responses_witness :
  fst (find_duplicates noFile "a.txt" None None Fixture.fresh)
  = {| text := "No files found with name " ++ quote ++ "a.txt" ++ quote;
       isError := false |}.
Proof.
  apply (proj1 (proj2 (proj2 (empty_result_responses noFile Fixture.fresh)))
           "a.txt" None None).
  reflexivity.
Defined.

(** ** find_duplicates *)

Lemma find_duplicates_by_totalResults_witness :
  includes
    (text (find_duplicates_response "a.txt"
             {| results := ["[FILE] C:\Users\x\a.txt"; "[FILE] D:\backup\a.txt"];
                totalResults := 2; error := None |}))
    ("Found " ++ toString 2 ++ " instances").
Proof.
  apply (proj2 (proj2 (proj2 (proj2 (proj2
           (find_duplicates_by_totalResults "a.txt" None))
           {| results := ["[FILE] C:\Users\x\a.txt"; "[FILE] D:\backup\a.txt"];
              totalResults := 2; error := None |} eq_refl)))).
  simpl. lia.
Defined.

(** X11: When all the files that match fit under the cap, find_duplicates
    counts them exactly: one match gives [Found only 1 instance of
    "<filename>":] and the line of that file, never a missing line; two or
    more give [Found N instances of "<filename>" (showing N):] with N the
    number of matches, followed by one line per match. *)
Theorem find_duplicates_exact_under_cap :
  forall (index : QueryContext -> QueryReply) (e : Engine) (filename : string)
         (path : option string) (maxResults : option Z) (rows : list ResultRow),
    index (configuredContext (duplicatesQuery filename path)
             (find_duplicates_options maxResults))
    = QueryMatches rows ->
    1 <= withDefault 50 maxResults ->
    Z.of_nat (List.length rows) <= withDefault 50 maxResults ->
    (forall r, rows = [r] ->
       fst (find_duplicates index filename path maxResults e)
       = {| text := "Found only 1 instance of " ++ quote ++ filename ++ quote ++ ":"
                      ++ newline ++ newline ++ formatRow r;
            isError := false |})
    /\ (2 <= Z.of_nat (List.length rows) ->
        fst (find_duplicates index filename path maxResults e)
        = {| text := "Found " ++ toString (Z.of_nat (List.length rows))
                       ++ " instances of " ++ quote ++ filename ++ quote
                       ++ " (showing " ++ toString (Z.of_nat (List.length rows))
                       ++ "):" ++ newline ++ newline
                       ++ join newline (map formatRow rows);
             isError := false |}).
Proof.
  intros index e filename path maxResults rows Hreply Hcap Hfit.
  assert (Hrun : fst (find_duplicates index filename path maxResults e)
                 = find_duplicates_response filename
                     {| results := map formatRow rows;
                        totalResults := Z.of_nat (List.length rows);
                        error := None |}).
  { destruct (configured_max (duplicatesQuery filename path)
                (find_duplicates_options maxResults) (withDefault 50 maxResults)
                eq_refl Hcap) as [Hmax Hoff].
    rewrite find_duplicates_run, fst_andThen, searchWithEverything_run, Hreply.
    cbn [outcomeOf fst].
    rewrite (window_from_start _ rows _ Hmax Hoff).
    now rewrite firstn_all2 by lia. }
  rewrite Hrun. unfold find_duplicates_response.
  cbn [error truthy totalResults results]. split.
  - intros r ->. reflexivity.
  - intros Hmany. destruct (Z.ltb_spec 1 (Z.of_nat (List.length rows))); [| lia].
    unfold lengthOf. now rewrite length_map.
Qed.

Lemma find_duplicates_exact_under_cap_witness :
  fst (find_duplicates oneFile "a.txt" None None Fixture.fresh)
  = {| text := "Found only 1 instance of " ++ quote ++ "a.txt" ++ quote ++ ":"
                 ++ newline ++ newline ++ "[FILE] C:\Users\x\a.txt";
       isError := false |}
  /\ text (fst (find_duplicates Fixture.threeFiles "a.txt" None (Some 10)
                  Fixture.fresh))
     = "Found 3 instances of " ++ quote ++ "a.txt" ++ quote ++ " (showing 3):"
         ++ newline ++ newline ++ "[FILE] C:\Users\x\a.txt" ++ newline
         ++ "[FILE] D:\backup\a.txt" ++ newline ++ "[FILE] E:\old\a.txt".
Proof.
  split.
  - apply (proj1 (find_duplicates_exact_under_cap oneFile Fixture.fresh "a.txt" None
                    None [Fixture.report1] eq_refl ltac:(simpl; lia)
                    ltac:(simpl; lia)) Fixture.report1 eq_refl).
  - rewrite (proj2 (find_duplicates_exact_under_cap Fixture.threeFiles Fixture.fresh
                      "a.txt" None (Some 10)
                      [Fixture.report1; Fixture.report2; Fixture.report3]
                      eq_refl ltac:(simpl; lia) ltac:(simpl; lia))
               ltac:(simpl; lia)).
    reflexivity.
Defined.

(** ** Search text and filters *)

Lemma append_nil_inv (a b : string) :
  a ++ b = EmptyString -> a = EmptyString /\ b = EmptyString.
Proof.
  destruct a; simpl; [now split | discriminate].
Qed.

Lemma length_append (a b : string) :
  String.length (a ++ b) = (String.length a + String.length b)%nat.
Proof.
  induction a as [|c a IH]; simpl; [reflexivity | now rewrite IH].
Qed.

Lemma append_eq_self (a b : string) : a ++ b = b -> a = EmptyString.
Proof.
  intros H. apply (f_equal String.length) in H. rewrite length_append in H.
  destruct a; [reflexivity | simpl in H; lia].
Qed.

Lemma filterText_empty (filter : option string) (clause : string -> string) :
  filterText filter clause = EmptyString <-> truthy filter = false.
Proof.
  unfold filterText, given. destruct (truthy filter) eqn:Htruthy.
  - destruct filter as [v |]; [| discriminate Htruthy].
    split; [| discriminate].
    intros H. apply append_nil_inv in H. destruct H as [_ H]. discriminate H.
  - now split.
Qed.

(** X12: A filter can only put text in front of what is searched for: the
    search text of each tool ends with the raw query (the file name, the
    content clause), and it is exactly the raw query if and only if no
    filter is given, a filter being given when it is present and not the
    empty string. *)
Theorem search_text_extends_query :
  forall (query : string) (path extension size dateModified fileTypes : option string),
    (exists filters,
       advancedQuery query path extension size dateModified = filters ++ query)
    /\ (advancedQuery query path extension size dateModified = query
        <-> truthy path = false /\ truthy extension = false
            /\ truthy size = false /\ truthy dateModified = false)
    /\ (exists filters, duplicatesQuery query path = filters ++ query)
    /\ (duplicatesQuery query path = query <-> truthy path = false)
    /\ (exists filters,
          contentQuery query fileTypes path
          = filters ++ "content:" ++ quote ++ query ++ quote)
    /\ (contentQuery query fileTypes path = "content:" ++ quote ++ query ++ quote
        <-> truthy fileTypes = false /\ truthy path = false).
Proof.
  intros query path extension size dateModified fileTypes.
  assert (Hadv : advancedQuery query path extension size dateModified
                 = (filterText dateModified dmClause ++ filterText size sizeClause
                    ++ filterText extension extClause ++ filterText path pathClause)
                   ++ query).
  { unfold advancedQuery. rewrite !prependFilter_filterText.
    now rewrite !append_assoc. }
  assert (Hdup : duplicatesQuery query path = filterText path pathClause ++ query).
  { unfold duplicatesQuery. apply prependFilter_filterText. }
  assert (Hcon : contentQuery query fileTypes path
                 = (filterText path pathClause ++ filterText fileTypes extGroup)
                   ++ "content:" ++ quote ++ query ++ quote).
  { unfold contentQuery. rewrite !prependFilter_filterText.
    now rewrite !append_assoc. }
  split; [eexists; exact Hadv |].
  split; [| split; [eexists; exact Hdup | split; [| split; [eexists; exact Hcon |]]]].
  - rewrite Hadv. split.
    + intros H. apply append_eq_self in H.
      apply append_nil_inv in H. destruct H as [Hd H].
      apply append_nil_inv in H. destruct H as [Hs H].
      apply append_nil_inv in H. destruct H as [Hx Hp].
      apply filterText_empty in Hd, Hs, Hx, Hp. now repeat split.
    + intros (Hp & Hx & Hs & Hd).
      apply (filterText_empty _ pathClause) in Hp.
      apply (filterText_empty _ extClause) in Hx.
      apply (filterText_empty _ sizeClause) in Hs.
      apply (filterText_empty _ dmClause) in Hd.
      now rewrite Hp, Hx, Hs, Hd.
  - rewrite Hdup. split.
    + intros H. apply append_eq_self in H. now apply filterText_empty in H.
    + intros Hp. apply (filterText_empty _ pathClause) in Hp. now rewrite Hp.
  - rewrite Hcon. split.
    + intros H. apply append_eq_self in H.
      apply append_nil_inv in H. destruct H as [Hp Ht].
      apply filterText_empty in Hp, Ht. now split.
    + intros (Ht & Hp).
      apply (filterText_empty _ pathClause) in Hp.
      apply (filterText_empty _ extGroup) in Ht.
      now rewrite Hp, Ht.
Qed.

Lemma search_text_extends_query_witness :
  advancedQuery "report" (Some EmptyString) None None (Some EmptyString) = "report"
  /\ truthy (Some EmptyString) = false.
Proof.
  pose proof (search_text_extends_query "report" (Some EmptyString) None None
                (Some EmptyString) None) as Hempty.
  split.
  - apply (proj2 (proj1 (proj2 Hempty))). now repeat split.
  - apply (proj1 (proj1 (proj2 (proj2 (proj2 Hempty))))). reflexivity.
Defined.

(** ** Lines of a response and entries of a list of file types *)

Lemma hasChar_append (c : ascii) (a b : string) :
  hasChar c (a ++ b) = hasChar c a || hasChar c b.
Proof.
  induction a as [|x a IH]; simpl; [reflexivity |].
  now rewrite IH, orb_assoc.
Qed.

Lemma split_without_separator (sep : ascii) (a : string) :
  hasChar sep a = false -> split sep a = [a].
Proof.
  induction a as [|x a IH]; simpl; [reflexivity |].
  intros H. apply orb_false_iff in H. destruct H as [Hx Ha].
  now rewrite Hx, (IH Ha).
Qed.

Lemma split_at_separator (sep : ascii) (a b : string) :
  hasChar sep a = false -> split sep (a ++ String sep b) = a :: split sep b.
Proof.
  induction a as [|x a IH]; simpl.
  - intros _. now rewrite Ascii.eqb_refl.
  - intros H. apply orb_false_iff in H. destruct H as [Hx Ha].
    now rewrite Hx, (IH Ha).
Qed.

(** Splitting undoes joining when no entry holds the separator. *)
Lemma split_join (sep : ascii) (l : list string) :
  l <> [] -> Forall (fun entry => hasChar sep entry = false) l ->
  split sep (join (String sep EmptyString) l) = l.
Proof.
  unfold join. induction l as [|x l IH]; [now intros H |].
  intros _ Hall. inversion Hall as [| ? ? Hx Hl]; subst.
  destruct l as [|y l].
  - simpl. now apply split_without_separator.
  - change (String.concat (String sep EmptyString) (x :: y :: l))
      with (x ++ String sep (String.concat (String sep EmptyString) (y :: l))).
    rewrite (split_at_separator sep x _ Hx). f_equal.
    apply IH; [discriminate | assumption].
Qed.

Lemma length_split (sep : ascii) (s : string) :
  List.length (split sep s) = S (countChar sep s).
Proof.
  induction s as [|c s IH]; [reflexivity |].
  cbn [split countChar]. destruct (Ascii.eqb c sep).
  - simpl. now rewrite IH.
  - destruct (split sep s) as [|w ws]; [discriminate IH | exact IH].
Qed.

Lemma toString_one_line (n : Z) : hasChar (ascii_of_nat 10) (toString n) = false.
Proof.
  assert (Huint : forall d, hasChar (ascii_of_nat 10) (NilEmpty.string_of_uint d) = false)
    by (induction d; simpl; auto).
  assert (Hzero : forall d, hasChar (ascii_of_nat 10) (NilZero.string_of_uint d) = false)
    by (intros d; destruct d; try apply Huint; reflexivity).
  unfold toString, NilZero.string_of_int.
  destruct (Z.to_int n) as [d | d]; [apply Hzero |].
  simpl. apply Hzero.
Qed.

(** X13: The text of a successful search_files response with results can be
    taken apart again: split at the line breaks it is the header
    [Found N files (showing M):], one empty line and then the result lines
    as the search returned them, provided no line holds a line break. *)
Theorem search_files_text_round_trip :
  forall (query : string) (o : QueryOutcome),
    error o = None -> results o <> [] ->
    Forall (fun line => hasChar (ascii_of_nat 10) line = false) (results o) ->
    split (ascii_of_nat 10) (text (search_files_response query o))
    = ("Found " ++ toString (totalResults o) ++ " files (showing "
         ++ toString (lengthOf (results o)) ++ "):")
        :: EmptyString :: results o.
Proof.
  intros query o Hok Hsome Hlines.
  unfold search_files_response. rewrite Hok. cbn [truthy text].
  assert (Hlen : (0 <? lengthOf (results o)) = true).
  { apply Z.ltb_lt. unfold lengthOf. destruct (results o); [contradiction | simpl; lia]. }
  rewrite Hlen.
  set (header := "Found " ++ toString (totalResults o) ++ " files (showing "
                   ++ toString (lengthOf (results o)) ++ "):").
  assert (Htext : "Found " ++ toString (totalResults o) ++ " files (showing "
                    ++ toString (lengthOf (results o)) ++ "):" ++ newline ++ newline
                    ++ join newline (results o)
                  = header ++ String (ascii_of_nat 10)
                      (String (ascii_of_nat 10) (join newline (results o)))).
  { unfold header. now rewrite !append_assoc. }
  rewrite Htext.
  assert (Hheader : hasChar (ascii_of_nat 10) header = false).
  { unfold header. rewrite !hasChar_append, !toString_one_line. reflexivity. }
  rewrite (split_at_separator _ header _ Hheader). f_equal.
  cbn [split]. rewrite Ascii.eqb_refl. f_equal.
  now apply split_join.
Qed.

Lemma search_files_text_round_trip_witness :
  split (ascii_of_nat 10)
    (text (search_files_response "a.txt"
             {| results := ["[FILE] C:\Users\x\a.txt"; "[FILE] D:\backup\a.txt"];
                totalResults := 2; error := None |}))
  = ["Found 2 files (showing 2):"; EmptyString;
     "[FILE] C:\Users\x\a.txt"; "[FILE] D:\backup\a.txt"].
Proof.
  apply (search_files_text_round_trip "a.txt"
           {| results := ["[FILE] C:\Users\x\a.txt"; "[FILE] D:\backup\a.txt"];
              totalResults := 2; error := None |}).
  - reflexivity.
  - discriminate.
  - repeat constructor.
Defined.

(** X14: The group of file types has one [ext:] clause more than fileTypes has
    semicolons: a list without semicolon gives the single clause of its
    trimmed text, and every semicolon adds a clause, so a trailing
    semicolon adds an empty one. *)
Theorem ext_group_clause_count :
  forall (types : string),
    List.length (map (fun entry => "ext:" ++ trim entry) (split semicolon types))
    = S (countChar semicolon types)
    /\ (hasChar semicolon types = false ->
        extGroup types = "(ext:" ++ trim types ++ ")"
        /\ extGroup (types ++ ";") = "(ext:" ++ trim types ++ " | ext:)").
Proof.
  intros types. split.
  - rewrite length_map. apply length_split.
  - intros Hnone. unfold extGroup. split.
    + rewrite (split_without_separator _ _ Hnone). reflexivity.
    + change (types ++ ";") with (types ++ String semicolon EmptyString).
      rewrite (split_at_separator _ types EmptyString Hnone).
      cbn [split map join String.concat trim trimStart trimEnd].
      rewrite !append_assoc. reflexivity.
Qed.

Lemma ext_group_clause_count_witness :
  extGroup "txt" = "(ext:txt)" /\ extGroup "txt;" = "(ext:txt | ext:)".
Proof.
  apply (proj2 (ext_group_clause_count "txt")). reflexivity.
Defined.

(** ** Trimming *)

Lemma trimStart_spec (s : string) :
  (exists pre, s = pre ++ trimStart s /\ allWhiteSpace pre = true)
  /\ (forall c, firstChar (trimStart s) = Some c -> isWhiteSpace c = false).
Proof.
  induction s as [|x s [[pre [Hs Hpre]] Hfirst]]; cbn [trimStart].
  - split; [now exists EmptyString | discriminate].
  - destruct (isWhiteSpace x) eqn:Hx.
    + split; [| exact Hfirst].
      exists (String x pre). cbn [append allWhiteSpace]. rewrite Hx, Hpre.
      now rewrite <- Hs.
    + split; [now exists EmptyString |].
      cbn [firstChar]. now intros c [= <-].
Qed.

Lemma lastChar_some (x : ascii) (s : string) : lastChar (String x s) <> None.
Proof.
  cbn [lastChar]. destruct (lastChar s); discriminate.
Qed.

Lemma trimEnd_spec (s : string) :
  (exists post, s = trimEnd s ++ post /\ allWhiteSpace post = true)
  /\ (forall c, lastChar (trimEnd s) = Some c -> isWhiteSpace c = false)
  /\ (forall c, firstChar (trimEnd s) = Some c -> firstChar s = Some c).
Proof.
  induction s as [|x s [[post [Hs Hpost]] [Hlast Hfirst]]]; cbn [trimEnd].
  - repeat split; try discriminate. now exists EmptyString.
  - destruct (trimEnd s) as [|y t] eqn:Htrim.
    + destruct (isWhiteSpace x) eqn:Hx.
      * repeat split; try discriminate.
        exists (String x s). cbn [append allWhiteSpace]. rewrite Hx.
        split; [reflexivity |]. cbn [append] in Hs. now rewrite Hs.
      * repeat split.
        -- exists s. cbn [append] in *. split; [reflexivity |]. now rewrite Hs.
        -- cbn [lastChar]. now intros c [= <-].
        -- cbn [firstChar]. now intros c [= <-].
    + repeat split.
      * exists post. cbn [append] in *. split; [| exact Hpost]. now rewrite <- Hs.
      * intros c. change (lastChar (String x (String y t)))
          with (match lastChar (String y t) with
                | None => Some x
                | Some z => Some z
                end).
        destruct (lastChar (String y t)) as [z |] eqn:Hz.
        -- intros [= <-]. now apply Hlast.
        -- now elim (lastChar_some y t).
      * cbn [firstChar]. now intros c [= <-].
Qed.

(** X15: Trimming an entry of fileTypes removes white space at its two ends
    and nothing else: the entry is white space, the trimmed text, white
    space, and the trimmed text neither begins nor ends with a white-space
    character. *)
Theorem trim_removes_outer_white_space :
  forall (entry : string),
    (exists pre post,
       entry = pre ++ trim entry ++ post
       /\ allWhiteSpace pre = true /\ allWhiteSpace post = true)
    /\ (forall c, firstChar (trim entry) = Some c -> isWhiteSpace c = false)
    /\ (forall c, lastChar (trim entry) = Some c -> isWhiteSpace c = false).
Proof.
  intros entry. unfold trim.
  destruct (trimStart_spec entry) as [[pre [Hentry Hpre]] Hfirst].
  destruct (trimEnd_spec (trimStart entry)) as [[post [Hstart Hpost]] [Hlast Hkeep]].
  split; [| split].
  - exists pre, post. split; [| now split].
    now rewrite <- Hstart.
  - intros c Hc. apply Hfirst. now apply Hkeep.
  - exact Hlast.
Qed.

Lemma trim_removes_outer_white_space_witness :
  isWhiteSpace "p"%char = false /\ isWhiteSpace "f"%char = false.
Proof.
  split.
  - apply (proj1 (proj2 (trim_removes_outer_white_space "  pdf ")) "p"%char). reflexivity.
  - apply (proj2 (proj2 (trim_removes_outer_white_space "  pdf ")) "f"%char). reflexivity.
Defined.

(** ** Directory paths with and without a trailing separator *)

(** X17: A directory path written with a trailing backslash and the same path
    written without it give the same full path. *)
Theorem trailing_separator_is_immaterial :
  forall (dir name : string),
    dir <> EmptyString -> name <> EmptyString ->
    endsWith dir backslash = false ->
    fullPathOf (Some (dir ++ backslash)) (Some name)
    = fullPathOf (Some dir) (Some name).
Proof.
  intros dir name Hdir Hname Hends.
  assert (Hdir' : dir ++ backslash <> EmptyString)
    by (destruct dir; [now elim Hdir | discriminate]).
  apply truthy_Some in Hdir, Hname, Hdir'.
  unfold fullPathOf. rewrite Hdir, Hname, Hdir'. cbn [andb valueOf]. rewrite Hends.
  assert (Hyes : endsWith (dir ++ backslash) backslash = true)
    by (apply endsWith_iff; now exists dir).
  rewrite Hyes. apply append_assoc.
Qed.

Lemma trailing_separator_is_immaterial_witness :
  fullPathOf (Some ("D:\backup" ++ backslash)) (Some "notes.md")
  = fullPathOf (Some "D:\backup") (Some "notes.md").
Proof.
  apply (trailing_separator_is_immaterial "D:\backup" "notes.md");
    [discriminate | discriminate | reflexivity].
Defined.

(** ** The summary of search_files_advanced *)

Lemma given_truthy (v : string) : v <> EmptyString -> given (Some v) = Some v.
Proof.
  intros Hv. apply truthy_Some in Hv. unfold given. now rewrite Hv.
Qed.

Lemma given_falsy (filter : option string) : truthy filter = false -> given filter = None.
Proof.
  intros H. unfold given. now rewrite H.
Qed.

(** X18: A successful search_files_advanced response with results reads
    [Found N files], a summary of the filters, [(showing M, sorted by
    <sortBy>):], an empty line and the result lines.  The summary is empty
    when no filter is given; with all four given it names them in the
    order path, extension, size, date modified, the path in quotes. *)
Theorem advanced_response_summary :
  forall (query : string) (path extension size dateModified : option string)
         (sortBy : string) (o : QueryOutcome),
    error o = None -> results o <> [] ->
    exists summary,
      search_files_advanced_response query path extension size dateModified sortBy o
      = {| text := "Found " ++ toString (totalResults o) ++ " files" ++ summary
                     ++ " (showing " ++ toString (lengthOf (results o))
                     ++ ", sorted by " ++ sortBy ++ "):" ++ newline ++ newline
                     ++ join newline (results o);
           isError := false |}
      /\ (truthy path = false -> truthy extension = false ->
          truthy size = false -> truthy dateModified = false ->
          summary = EmptyString)
      /\ (forall p x s d,
            path = Some p -> extension = Some x -> size = Some s ->
            dateModified = Some d ->
            p <> EmptyString -> x <> EmptyString -> s <> EmptyString ->
            d <> EmptyString ->
            summary = " (filtered by path: " ++ quote ++ p ++ quote
                        ++ ", extension: " ++ x ++ ", size: " ++ s
                        ++ ", date modified: " ++ d ++ ")").
Proof.
  intros query path extension size dateModified sortBy o Hok Hsome.
  assert (Hlen : (0 <? lengthOf (results o)) = true).
  { apply Z.ltb_lt. unfold lengthOf. destruct (results o); [contradiction | simpl; lia]. }
  set (filters :=
         List.app (filterInfo "path: "
                     (option_map (fun v => quote ++ v ++ quote) (given path)))
           (List.app (filterInfo "extension: " (given extension))
              (List.app (filterInfo "size: " (given size))
                 (filterInfo "date modified: " (given dateModified))))).
  exists (if 0 <? lengthOf filters
          then " (filtered by " ++ join ", " filters ++ ")"
          else EmptyString).
  split; [| split].
  - unfold search_files_advanced_response. rewrite Hok. cbn [truthy].
    fold filters. rewrite Hlen.
    destruct (0 <? lengthOf filters).
    + now rewrite !append_assoc.
    + now rewrite !append_assoc.
  - intros Hp Hx Hs Hd. unfold filters.
    now rewrite (given_falsy _ Hp), (given_falsy _ Hx), (given_falsy _ Hs),
      (given_falsy _ Hd).
  - intros p x s d -> -> -> -> Hp Hx Hs Hd. unfold filters.
    rewrite (given_truthy _ Hp), (given_truthy _ Hx), (given_truthy _ Hs),
      (given_truthy _ Hd).
    cbn [option_map filterInfo List.app lengthOf List.length].
    change (0 <? Z.of_nat 4) with true. cbv iota.
    unfold join. cbn [String.concat]. now rewrite !append_assoc.
Qed.

Lemma advanced_response_summary_witness :
  exists summary,
    text (search_files_advanced_response "report" (Some "C:\Docs") (Some "pdf")
            (Some ">1mb") (Some "today") "size_desc"
            {| results := ["[FILE] C:\Docs\report.pdf"]; totalResults := 1;
               error := None |})
    = "Found 1 files" ++ summary ++ " (showing 1, sorted by size_desc):"
        ++ newline ++ newline ++ "[FILE] C:\Docs\report.pdf"
    /\ summary = " (filtered by path: " ++ quote ++ "C:\Docs" ++ quote
                   ++ ", extension: pdf, size: >1mb, date modified: today)".
Proof.
  destruct (advanced_response_summary "report" (Some "C:\Docs") (Some "pdf")
              (Some ">1mb") (Some "today") "size_desc"
              {| results := ["[FILE] C:\Docs\report.pdf"]; totalResults := 1;
                 error := None |} eq_refl ltac:(discriminate))
    as [summary [Htext [_ Hall]]].
  exists summary. split.
  - rewrite Htext. reflexivity.
  - apply (Hall "C:\Docs" "pdf" ">1mb" "today"); try reflexivity; discriminate.
Defined.

(** ** The query of search_content: entries and trimmed types *)

Lemma hasChar_found (c : ascii) (s : string) :
  hasChar c s = true -> exists a b, s = a ++ String c b.
Proof.
  induction s as [|x s IH]; cbn [hasChar]; [discriminate |].
  destruct (Ascii.eqb_spec x c) as [-> | Hne]; cbn [orb].
  - intros _. now exists EmptyString, s.
  - intros H. destruct (IH H) as [a [b ->]]. now exists (String x a), b.
Qed.

Lemma hasChar_absent (c : ascii) (s : string) :
  hasChar c s = false <-> forall a b, s <> a ++ String c b.
Proof.
  split.
  - intros Hnone a b ->. rewrite hasChar_append in Hnone. cbn [hasChar] in Hnone.
    rewrite Ascii.eqb_refl in Hnone. cbn [orb] in Hnone.
    now rewrite orb_true_r in Hnone.
  - intros Hno. destruct (hasChar c s) eqn:Hc; [| reflexivity].
    destruct (hasChar_found c s Hc) as [a [b Hs]]. now elim (Hno a b).
Qed.

Lemma split_entries_without_separator (sep : ascii) (s : string) :
  Forall (fun entry => hasChar sep entry = false) (split sep s).
Proof.
  induction s as [|c s IH]; cbn [split].
  - now repeat constructor.
  - destruct (Ascii.eqb c sep) eqn:Hc.
    + constructor; [reflexivity | exact IH].
    + pose proof (split_not_nil sep s) as Hnil.
      destruct (split sep s) as [|w ws]; [contradiction |].
      inversion IH as [| ? ? Hw Hws]; subst.
      constructor; [| exact Hws]. cbn [hasChar]. now rewrite Hc, Hw.
Qed.

Lemma allWhiteSpace_Forall (s : string) :
  allWhiteSpace s = true ->
  Forall (fun c => isWhiteSpace c = true) (list_ascii_of_string s).
Proof.
  induction s as [|x s IH]; cbn [allWhiteSpace list_ascii_of_string]; [constructor |].
  intros H. apply andb_true_iff in H. destruct H as [Hx Hs]. constructor; auto.
Qed.

Lemma lastChar_append (rest : string) (c : ascii) :
  lastChar (rest ++ String c EmptyString) = Some c.
Proof.
  induction rest as [|x rest IH]; [reflexivity |].
  cbn [append lastChar]. now rewrite IH.
Qed.

Lemma isWhiteSpace_iff (c : ascii) :
  isWhiteSpace c = true <-> In (N_of_ascii c) [9; 10; 11; 12; 13; 32; 160]%N.
Proof.
  unfold isWhiteSpace. cbv zeta.
  rewrite !orb_true_iff, andb_true_iff, !N.leb_le, !N.eqb_eq.
  cbn [In]. lia.
Qed.

(** C5: search_content builds the query [content:"<content>"], prepends
    the group [(ext:t1 | ext:t2 | ...)] with one clause per
    semicolon-separated, trimmed entry of fileTypes when fileTypes is given
    (truthy), and puts [path:"<path>" ] in front when path is given, so with
    both the query is [path:"..." (ext:t1 | ext:t2 | ...) content:"..."];
    for fileTypes [txt;pdf] the group is [(ext:txt | ext:pdf)].  This text
    is the search text that the handler configures in the engine.

    The entries are the pieces of fileTypes between its semicolons: they
    hold no semicolon and joined with semicolons they give fileTypes back,
    and whatever list of pieces does so is the list the group is built
    from.  The trimmed entry is the entry without the white space at its
    two ends (TAB, LF, VT, FF, CR, SP, NBSP): what is cut in front and
    behind is white space only, and what is left neither begins nor ends
    with a white-space character. *)
Theorem content_query_assembly :
  forall (content : string) (fileTypes path : option string),
    contentQuery content fileTypes path
    = filterText path pathClause ++ filterText fileTypes extGroup
        ++ "content:" ++ quote ++ content ++ quote
    /\ (forall types,
          extGroup types
          = "(" ++ join " | " (map (fun entry => "ext:" ++ trim entry)
                                   (split semicolon types)) ++ ")"
          /\ join (String semicolon EmptyString) (split semicolon types) = types)
    /\ (forall types p,
          fileTypes = Some types -> path = Some p ->
          types <> EmptyString -> p <> EmptyString ->
          contentQuery content fileTypes path
          = "path:" ++ quote ++ p ++ quote ++ " " ++ extGroup types
              ++ " content:" ++ quote ++ content ++ quote)
    /\ contentQuery content None None = "content:" ++ quote ++ content ++ quote
    /\ extGroup "txt;pdf" = "(ext:txt | ext:pdf)"
    /\ contentQuery content (Some "txt;pdf") None
       = "(ext:txt | ext:pdf) content:" ++ quote ++ content ++ quote
    /\ (forall index maxResults e,
          q_search (context (snd (search_content index content fileTypes path
                                    maxResults e)))
          = contentQuery content fileTypes path)
    /\ (forall types,
          split semicolon types <> []
          /\ (forall entry, In entry (split semicolon types) ->
                forall a b, entry <> a ++ String semicolon b))
    /\ (forall types entries,
          entries <> [] ->
          (forall entry, In entry entries ->
             forall a b, entry <> a ++ String semicolon b) ->
          join (String semicolon EmptyString) entries = types ->
          extGroup types
          = "(" ++ join " | " (map (fun entry => "ext:" ++ trim entry) entries) ++ ")")
    /\ (forall entry,
          exists pre post,
            entry = pre ++ trim entry ++ post
            /\ Forall (fun c => isWhiteSpace c = true) (list_ascii_of_string pre)
            /\ Forall (fun c => isWhiteSpace c = true) (list_ascii_of_string post))
    /\ (forall entry c rest,
          trim entry = String c rest \/ trim entry = rest ++ String c EmptyString ->
          isWhiteSpace c = false)
    /\ (forall c, isWhiteSpace c = true
                  <-> In (N_of_ascii c) [9; 10; 11; 12; 13; 32; 160]%N)
    /\ extGroup " txt ; pdf  " = "(ext:txt | ext:pdf)"
    /\ extGroup ("txt" ++ String (ascii_of_nat 9) (String (ascii_of_nat 160) ";pdf"))
       = "(ext:txt | ext:pdf)"
    /\ extGroup "tar gz;;zip; " = "(ext:tar gz | ext: | ext:zip | ext:)".
Proof.
  intros content fileTypes path.
  assert (Hform : forall f p,
            contentQuery content f p
            = filterText p pathClause ++ filterText f extGroup
                ++ "content:" ++ quote ++ content ++ quote).
  { intros. unfold contentQuery. now rewrite !prependFilter_filterText. }
  split; [apply Hform |].
  split; [| split; [| split; [| split; [| split; [| split]]]]].
  - intros types. split; [reflexivity | apply join_split].
  - intros types p -> -> Htypes Hp.
    rewrite Hform, !filterText_given by assumption.
    unfold pathClause. rewrite !append_assoc. vm_compute. reflexivity.
  - reflexivity.
  - vm_compute. reflexivity.
  - vm_compute. reflexivity.
  - intros. rewrite search_content_run. rewrite snd_andThen.
    now rewrite context_after_search.
  - split; [| split; [| split; [| split; [| split; [| split; [| split]]]]]].
    + intros types. split; [apply split_not_nil |].
      intros entry Hin. apply hasChar_absent.
      pose proof (split_entries_without_separator semicolon types) as Hall.
      rewrite Forall_forall in Hall. now apply Hall.
    + intros types entries Hsome Hfree Hjoin.
      assert (Hsplit : split semicolon types = entries).
      { rewrite <- Hjoin. apply split_join; [exact Hsome |].
        apply Forall_forall. intros entry Hin. apply hasChar_absent.
        now apply Hfree. }
      unfold extGroup. now rewrite Hsplit.
    + intros entry. unfold trim.
      destruct (trimStart_spec entry) as [[pre [Hentry Hpre]] _].
      destruct (trimEnd_spec (trimStart entry)) as [[post [Hstart Hpost]] _].
      exists pre, post. split; [now rewrite <- Hstart |].
      split; now apply allWhiteSpace_Forall.
    + intros entry c rest Hends. unfold trim in *.
      destruct (trimStart_spec entry) as [_ Hfirst].
      destruct (trimEnd_spec (trimStart entry)) as [_ [Hlast Hkeep]].
      destruct Hends as [Hhead | Htail].
      * apply Hfirst, Hkeep. now rewrite Hhead.
      * apply Hlast. rewrite Htail. apply lastChar_append.
    + exact isWhiteSpace_iff.
    + vm_compute. reflexivity.
    + vm_compute. reflexivity.
    + vm_compute. reflexivity.
Qed.

Lemma content_query_assembly_witness :
  contentQuery "invoice" (Some " txt ; pdf ") (Some "C:\Docs")
  = "path:" ++ quote ++ "C:\Docs" ++ quote ++ " (ext:txt | ext:pdf) content:"
      ++ quote ++ "invoice" ++ quote
  /\ extGroup "txt ;pdf " = "(ext:txt | ext:pdf)"
  /\ isWhiteSpace "p"%char = false.
Proof.
  destruct (content_query_assembly "invoice" (Some " txt ; pdf ") (Some "C:\Docs"))
    as (_ & _ & Hall & _ & _ & _ & _ & _ & Hpieces & _ & Hends & _).
  split; [| split].
  - apply (Hall " txt ; pdf " "C:\Docs"); try reflexivity; discriminate.
  - apply (Hpieces "txt ;pdf " ["txt "; "pdf "]).
    + discriminate.
    + intros entry [<- | [<- | []]] a b Heq;
        apply (f_equal (hasChar semicolon)) in Heq;
        rewrite hasChar_append in Heq; cbn in Heq;
        now rewrite orb_true_r in Heq.
    + reflexivity.
  - apply (Hends " pdf " "p"%char "df"). left. reflexivity.
Defined.

(** ** The cap of each tool *)

Lemma search_lines_and_cap (index : QueryContext -> QueryReply) (query : string)
  (options : Options) (e : Engine) (cap : Z) :
  orNumber (maxResults options) 100 = cap -> 0 <= cap ->
  results (fst (searchWithEverything index query options e))
  = map formatRow (visible (snd (searchWithEverything index query options e)))
  /\ lengthOf (results (fst (searchWithEverything index query options e))) <= cap
  /\ q_max (context (snd (searchWithEverything index query options e))) = cap.
Proof.
  intros Hcap Hpos. rewrite searchWithEverything_run.
  assert (Hmax : q_max (configuredContext query options) = cap) by exact Hcap.
  destruct (index (configuredContext query options)) as [code | rows];
    cbn [outcomeOf fst snd results visible context]; unfold lengthOf.
  - repeat split; [simpl; lia | exact Hmax].
  - repeat split; [| exact Hmax].
    rewrite length_map, <- Hmax. apply window_within_max. lia.
Qed.

Lemma search_answers_within (index : QueryContext -> QueryReply) (query : string)
  (options : Options) (response : QueryOutcome -> ToolResponse) (e : Engine)
  (cap : Z) :
  orNumber (maxResults options) 100 = cap -> 0 <= cap ->
  answersWithin cap response
    (andThen (searchWithEverything index query options) response e).
Proof.
  intros Hcap Hpos.
  destruct (search_lines_and_cap index query options e cap Hcap Hpos)
    as (Hrows & Hlen & Hmax).
  exists (fst (searchWithEverything index query options e)).
  rewrite fst_andThen, snd_andThen. now repeat split.
Qed.

Lemma orNumber_positive (m : Z) : 1 <= m -> orNumber (Some m) 100 = m.
Proof.
  intros Hm. unfold orNumber. destruct (Z.eqb_spec m 0); [lia | reflexivity].
Qed.

(** X1: the cap bounds the lines.  A search whose options carry a
    [maxResults] m of at least 1 returns at most m lines; and each of the
    four handlers, called with such an m, configures m as the engine's
    maximum and answers with the response to at most m result lines, the
    formatted visible rows of the engine it leaves behind. *)
Lemma result_lines_within_maxResults :
  forall (index : QueryContext -> QueryReply) (e : Engine) (m : Z),
    1 <= m ->
    (forall query options,
       maxResults options = Some m ->
       lengthOf (results (fst (searchWithEverything index query options e))) <= m)
    /\ (forall query matchCase matchWholeWord regex,
          answersWithin m (search_files_response query)
            (search_files index query (Some m) matchCase matchWholeWord regex e))
    /\ (forall query path extension size dateModified matchCase matchWholeWord
               regex sortBy,
          answersWithin m
            (search_files_advanced_response query path extension size dateModified
               (withDefault "name_asc" sortBy))
            (search_files_advanced index query path extension size dateModified
               (Some m) matchCase matchWholeWord regex sortBy e))
    /\ (forall filename path,
          answersWithin m (find_duplicates_response filename)
            (find_duplicates index filename path (Some m) e))
    /\ (forall content fileTypes path,
          answersWithin m (search_content_response content)
            (search_content index content fileTypes path (Some m) e)).
Proof.
  intros index e m Hm.
  split; [| split; [| split; [| split]]]; intros.
  - apply (search_lines_and_cap index query options e m); [| lia].
    rewrite H. now apply orNumber_positive.
  - rewrite search_files_run. apply search_answers_within; [| lia].
    now apply orNumber_positive.
  - rewrite search_files_advanced_run. apply search_answers_within; [| lia].
    now apply orNumber_positive.
  - rewrite find_duplicates_run. apply search_answers_within; [| lia].
    now apply orNumber_positive.
  - rewrite search_content_run. apply search_answers_within; [| lia].
    now apply orNumber_positive.
Qed.

Lemma result_lines_within_maxResults_witness :
  answersWithin 2 (find_duplicates_response "a.txt")
    (find_duplicates Fixture.threeFiles "a.txt" None (Some 2) Fixture.fresh)
  /\ Z.of_nat (List.length (visible (snd (find_duplicates Fixture.threeFiles "a.txt"
                                            None (Some 2) Fixture.fresh)))) = 2.
Proof.
  split; [| reflexivity].
  apply (proj1 (proj2 (proj2 (proj2
           (result_lines_within_maxResults Fixture.threeFiles Fixture.fresh 2
              ltac:(lia))))) "a.txt" None).
Defined.

(** X5: the default caps.  Called without [maxResults], search_files
    configures the maximum 20 and answers with at most 20 result lines,
    search_files_advanced does so with 100, find_duplicates and
    search_content with 50; a search whose options carry no maximum, or
    the maximum 0, is capped at 100. *)
Theorem default_caps :
  forall (index : QueryContext -> QueryReply) (e : Engine),
    (forall query matchCase matchWholeWord regex,
       answersWithin 20 (search_files_response query)
         (search_files index query None matchCase matchWholeWord regex e))
    /\ (forall query path extension size dateModified matchCase matchWholeWord
               regex sortBy,
          answersWithin 100
            (search_files_advanced_response query path extension size dateModified
               (withDefault "name_asc" sortBy))
            (search_files_advanced index query path extension size dateModified
               None matchCase matchWholeWord regex sortBy e))
    /\ (forall filename path,
          answersWithin 50 (find_duplicates_response filename)
            (find_duplicates index filename path None e))
    /\ (forall content fileTypes path,
          answersWithin 50 (search_content_response content)
            (search_content index content fileTypes path None e))
    /\ (forall query matchCase matchWholeWord regex sortBy,
          lengthOf (results (fst (searchWithEverything index query
                                    (Build_Options None matchCase matchWholeWord
                                       regex sortBy) e))) <= 100
          /\ q_max (context (snd (searchWithEverything index query
                                    (Build_Options None matchCase matchWholeWord
                                       regex sortBy) e))) = 100
          /\ lengthOf (results (fst (searchWithEverything index query
                                       (Build_Options (Some 0) matchCase
                                          matchWholeWord regex sortBy) e))) <= 100
          /\ q_max (context (snd (searchWithEverything index query
                                    (Build_Options (Some 0) matchCase
                                       matchWholeWord regex sortBy) e))) = 100).
Proof.
  intros index e.
  split; [| split; [| split; [| split]]].
  - intros. rewrite search_files_run.
    apply search_answers_within; [reflexivity | lia].
  - intros. rewrite search_files_advanced_run.
    apply search_answers_within; [reflexivity | lia].
  - intros. rewrite find_duplicates_run.
    apply search_answers_within; [reflexivity | lia].
  - intros. rewrite search_content_run.
    apply search_answers_within; [reflexivity | lia].
  - intros query mc mw rx sb.
    destruct (search_lines_and_cap index query (Build_Options None mc mw rx sb)
                e 100 eq_refl ltac:(lia)) as (_ & Hlen1 & Hmax1).
    destruct (search_lines_and_cap index query (Build_Options (Some 0) mc mw rx sb)
                e 100 eq_refl ltac:(lia)) as (_ & Hlen2 & Hmax2).
    now repeat split.
Qed.
